(** * Vouch Proxy (Lasso fork): the /auth callback, the ADFS adapter and the
    authorization engine.

    A shallow embedding of [handlers/auth.go] (the [/auth] handlers,
    [isEmailValid], [isUsernameCaseInsensitive], [verifyUser]) and of the ADFS
    provider's [GetUserInfoFromADFS].  Go strings are byte strings and are
    modelled by [string]; Go maps by [gmap]; the collaborators that live in
    other packages (session store, token manager, JSON and base64 decoders,
    the HTTP client) are variables of the sections below. *)

From Stdlib Require Import Ascii String List Bool Arith ZArith Lia DecimalString.
From stdpp Require Import base option list strings gmap.

Local Open Scope string_scope.
Local Open Scope list_scope.

(** ** Go strings *)

Module GoString.

(** [len(s)]: the number of bytes. *)
Definition len (s : string) : nat := String.length s.

(** [b >= utf8.RuneSelf] is false: the byte is an ASCII character. *)
Definition isASCIIbyte (c : ascii) : bool := Nat.ltb (nat_of_ascii c) 128.

Fixpoint isASCII (s : string) : bool :=
  match s with
  | EmptyString => true
  | String c s' => isASCIIbyte c && isASCII s'
  end.

(** ['A' <= c && c <= 'Z' ? c + ('a' - 'A') : c] *)
Definition lowerByte (c : ascii) : ascii :=
  let n := nat_of_ascii c in
  if Nat.leb 65 n && Nat.leb n 90 then ascii_of_nat (n + 32) else c.

Fixpoint asciiLower (s : string) : string :=
  match s with
  | EmptyString => EmptyString
  | String c s' => String (lowerByte c) (asciiLower s')
  end.

(** [strings.HasPrefix] and [strings.HasSuffix]. *)
Fixpoint HasPrefix (s p : string) : bool :=
  match p, s with
  | EmptyString, _ => true
  | String _ _, EmptyString => false
  | String a p', String b s' => Ascii.eqb a b && HasPrefix s' p'
  end.

Fixpoint HasSuffix (s suffix : string) : bool :=
  String.eqb s suffix ||
  match s with
  | EmptyString => false
  | String _ s' => HasSuffix s' suffix
  end.

(** [strings.Split(s, sep)] for a one-byte separator: the pieces between
    the occurrences of [sep]; always at least one piece. *)
Fixpoint Split (s : string) (sep : ascii) : list string :=
  match s with
  | EmptyString => [EmptyString]
  | String c s' =>
      if Ascii.eqb c sep then EmptyString :: Split s' sep
      else match Split s' sep with
           | [] => [String c EmptyString]
           | p :: ps => String c p :: ps
           end
  end.

(** [strings.Join(l, sep)] *)
Fixpoint Join (l : list string) (sep : string) : string :=
  match l with
  | [] => EmptyString
  | [x] => x
  | x :: l' => x ++ sep ++ Join l' sep
  end.

(** The verb [%s] applied to a [[]string]: [[a b c]]. *)
Definition fmtStrings (l : list string) : string := "[" ++ Join l " " ++ "]".

(** The verb [%t]. *)
Definition fmtBool (b : bool) : string := if b then "true" else "false".

(** The number of occurrences of a byte. *)
Fixpoint count (c : ascii) (s : string) : nat :=
  match s with
  | EmptyString => 0
  | String a s' => (if Ascii.eqb a c then 1 else 0) + count c s'
  end.

(** [utf8]: the size (2 to 4) a leading byte announces and the range its
    second byte must lie in (the tables [first] and [acceptRanges]); [None]
    for a byte that starts no multi-byte sequence. *)
Definition first (c : nat) : option (nat * (nat * nat)) :=
  if Nat.ltb c 194 then None
  else if Nat.ltb c 224 then Some (2, (128, 191))
  else if Nat.eqb c 224 then Some (3, (160, 191))
  else if Nat.ltb c 237 then Some (3, (128, 191))
  else if Nat.eqb c 237 then Some (3, (128, 159))
  else if Nat.ltb c 240 then Some (3, (128, 191))
  else if Nat.eqb c 240 then Some (4, (144, 191))
  else if Nat.ltb c 244 then Some (4, (128, 191))
  else if Nat.eqb c 244 then Some (4, (128, 143))
  else None.

Definition between (lo hi : nat) (c : ascii) : bool :=
  Nat.leb lo (nat_of_ascii c) && Nat.leb (nat_of_ascii c) hi.

(** The number of bytes of the rune that starts with [c], [rest] being what
    follows it: an invalid or short sequence counts as one byte. *)
Definition runeSize (c : ascii) (rest : string) : nat :=
  if isASCIIbyte c then 1
  else
    match first (nat_of_ascii c) with
    | None => 1
    | Some (size, (lo, hi)) =>
        if Nat.ltb (String.length rest) (size - 1) then 1
        else
          match rest with
          | String c1 rest1 =>
              if negb (between lo hi c1) then 1
              else if Nat.eqb size 2 then 2
              else
                match rest1 with
                | String c2 rest2 =>
                    if negb (between 128 191 c2) then 1
                    else if Nat.eqb size 3 then 3
                    else
                      match rest2 with
                      | String c3 _ => if negb (between 128 191 c3) then 1 else 4
                      | EmptyString => 1
                      end
                | EmptyString => 1
                end
          | EmptyString => 1
          end
    end.

(** The loop of [utf8.RuneCountInString]; [skip] bytes of the current rune
    are still to be passed over. *)
Fixpoint runeCountFrom (skip : nat) (s : string) : nat :=
  match s with
  | EmptyString => 0
  | String c rest =>
      match skip with
      | S k => runeCountFrom k rest
      | O => S (runeCountFrom (runeSize c rest - 1) rest)
      end
  end.

(** [utf8.RuneCountInString(s)]: the number of characters. *)
Definition RuneCountInString (s : string) : nat := runeCountFrom 0 s.

End GoString.

(** ** Regular expressions ([regexp.MustCompile], [MatchString]) *)

Module Regexp.

(** The syntax the two patterns of the source use: character classes made
    of ranges, concatenation, alternation and iteration.  [x+], [x?] and
    [x{0,n}] are derived forms. *)
Inductive regex : Type :=
| Void : regex
| Eps : regex
| Class (ranges : list (ascii * ascii)) : regex
| Cat (r1 r2 : regex) : regex
| Alt (r1 r2 : regex) : regex
| Star (r : regex) : regex.

Definition inRange (c : ascii) (rg : ascii * ascii) : bool :=
  Nat.leb (nat_of_ascii (fst rg)) (nat_of_ascii c)
  && Nat.leb (nat_of_ascii c) (nat_of_ascii (snd rg)).

Definition inClass (c : ascii) (ranges : list (ascii * ascii)) : bool :=
  existsb (inRange c) ranges.

Definition Chr (c : ascii) : regex := Class [(c, c)].
Definition Plus (r : regex) : regex := Cat r (Star r).
Definition Opt (r : regex) : regex := Alt r Eps.

(** [r{0,n}] *)
Fixpoint UpTo (n : nat) (r : regex) : regex :=
  match n with
  | O => Eps
  | S k => Opt (Cat r (UpTo k r))
  end.

(** Any byte, for a pattern that is not anchored. *)
Definition AnyByte : regex := Class [(zero, ascii_of_nat 255)].

Fixpoint nullable (r : regex) : bool :=
  match r with
  | Void => false
  | Eps => true
  | Class _ => false
  | Cat r1 r2 => nullable r1 && nullable r2
  | Alt r1 r2 => nullable r1 || nullable r2
  | Star _ => true
  end.

(** The derivative of [r] by the byte [c]: what is left to match after
    [c]. *)
Fixpoint deriv (c : ascii) (r : regex) : regex :=
  match r with
  | Void => Void
  | Eps => Void
  | Class rs => if inClass c rs then Eps else Void
  | Cat r1 r2 =>
      if nullable r1 then Alt (Cat (deriv c r1) r2) (deriv c r2)
      else Cat (deriv c r1) r2
  | Alt r1 r2 => Alt (deriv c r1) (deriv c r2)
  | Star r1 => Cat (deriv c r1) (Star r1)
  end.

(** Whether the whole of [s] is in the language of [r]. *)
Fixpoint fullMatch (r : regex) (s : string) : bool :=
  match s with
  | EmptyString => nullable r
  | String c s' => fullMatch (deriv c r) s'
  end.

(** A compiled pattern: the body and whether it starts with [^] and ends
    with [$]. *)
Record Regexp : Type := MustCompile {
  anchoredStart : bool;
  body : regex;
  anchoredEnd : bool
}.

(** [re.MatchString(s)]: whether [s] contains a match of the pattern. *)
Definition MatchString (re : Regexp) (s : string) : bool :=
  fullMatch
    (Cat (if anchoredStart re then Eps else Star AnyByte)
         (Cat (body re) (if anchoredEnd re then Eps else Star AnyByte)))
    s.

(** The language of a regular expression. *)
Inductive lang : regex -> string -> Prop :=
| lang_eps : lang Eps EmptyString
| lang_class rs c : inClass c rs = true -> lang (Class rs) (String c EmptyString)
| lang_cat r1 r2 s1 s2 : lang r1 s1 -> lang r2 s2 -> lang (Cat r1 r2) (s1 ++ s2)
| lang_alt_l r1 r2 s : lang r1 s -> lang (Alt r1 r2) s
| lang_alt_r r1 r2 s : lang r2 s -> lang (Alt r1 r2) s
| lang_star_nil r : lang (Star r) EmptyString
| lang_star_app r s1 s2 : lang r s1 -> lang (Star r) s2 -> lang (Star r) (s1 ++ s2).

(** The bytes a regular expression can consume. *)
Fixpoint alphabet (r : regex) (c : ascii) : bool :=
  match r with
  | Void | Eps => false
  | Class rs => inClass c rs
  | Cat r1 r2 | Alt r1 r2 => alphabet r1 c || alphabet r2 c
  | Star r1 => alphabet r1 c
  end.

Fixpoint allBytes (p : ascii -> bool) (s : string) : bool :=
  match s with
  | EmptyString => true
  | String c s' => p c && allBytes p s'
  end.

End Regexp.

(** ** The e-mail pattern *)

Import Regexp.

Definition alnum : list (ascii * ascii) :=
  [("a", "z"); ("A", "Z"); ("0", "9")]%char.

Definition alnumDash : list (ascii * ascii) :=
  alnum ++ [("-", "-")]%char.

(** [[a-zA-Z0-9.!#$%&'*+\/=?^_`{|}~-]] *)
Definition localClass : list (ascii * ascii) :=
  alnum ++
  map (fun c => (c, c))
    [".";"!";"#";"$";"%";"&";"'";"*";"+";"/";"=";"?";"^";"_";"`";"{";"|";"}";"~";"-"]%char.

(** [[a-zA-Z0-9](?:[a-zA-Z0-9-]{0,61}[a-zA-Z0-9])?] *)
Definition labelRe : regex :=
  Cat (Class alnum) (Opt (Cat (UpTo 61 (Class alnumDash)) (Class alnum))).

(** [^[a-zA-Z0-9.!#$%&'*+\/=?^_`{|}~-]+@label(?:\.label)*$] *)
Definition emailBody : regex :=
  Cat (Plus (Class localClass))
      (Cat (Chr "@")
           (Cat labelRe (Star (Cat (Chr ".") labelRe)))).

Definition emailRegex : Regexp := MustCompile true emailBody true.

(** [isEmailValid] checks if the email provided passes the required structure
    and length. *)
Definition isEmailValid (e : string) : bool :=
  if Nat.ltb (GoString.len e) 3 || Nat.ltb 254 (GoString.len e) then false
  else MatchString emailRegex e.


(** ** Data model ([pkg/structs], [pkg/cfg]) *)

(** A Go [error], by its message. *)
Definition error : Type := string.

(** Modelled from the spec: the declaration of [structs.User] is not part of
    the sources; section 3 of the specification gives an identity record
    with [Username], [Email], an optional [Name] and the [TeamMemberships]. *)
Module User.
Record t : Type := mk {
  Username : string;
  Name : string;
  Email : string;
  TeamMemberships : list string
}.
(** [structs.User{}] *)
Definition zero : t := mk "" "" "" [].
Definition setUsername (u : t) (v : string) : t :=
  mk v (Name u) (Email u) (TeamMemberships u).
Definition setEmail (u : t) (v : string) : t :=
  mk (Username u) (Name u) v (TeamMemberships u).
End User.

(** Modelled from the spec: the declaration of [structs.ADFSUser] is not part
    of the sources; the adapter reads its [Username], [Email] and [UPN]. *)
Module ADFSUser.
Record t : Type := mk {
  Username : string;
  Email : string;
  UPN : string
}.
Definition zero : t := mk "" "" "".
Definition setEmail (u : t) (v : string) : t := mk (Username u) v (UPN u).
End ADFSUser.

(** Modelled from the spec: [structs.PTokens], the pass-through IdP tokens. *)
Module PTokens.
Record t : Type := mk {
  PAccessToken : string;
  PIdToken : string
}.
Definition zero : t := mk "" "".
End PTokens.

(** A JSON value of a custom claim; arrays and objects are kept as their
    text. *)
Inductive JSON : Type :=
| JNull : JSON
| JBool (b : bool) : JSON
| JNumber (literal : string) : JSON
| JString (s : string) : JSON
| JComposite (raw : string) : JSON.

(** Modelled from the spec: [structs.CustomClaims], an open mapping from
    claim name to JSON value. *)
Module CustomClaims.
Record t : Type := mk { Claims : gmap string JSON }.
Definition zero : t := mk ∅.
End CustomClaims.

(** Modelled from the spec: the fields of [cfg.Cfg], [cfg.GenOAuth] and
    [cfg.Branding] that the handlers and the adapter read (section 6 of the
    specification enumerates the configuration). *)
Module cfg.
Record Config : Type := mkConfig {
  AllowAllUsers : bool;
  WhiteList : list string;
  TeamWhiteList : list string;
  Domains : list string;
  CaseInsensitiveEmails : bool;
  CaseInsensitiveEmailDomains : list string;
  SessionName : string
}.
Record OAuth : Type := mkOAuth {
  ClientID : string;
  ClientSecret : string;
  TokenURL : string;
  RedirectURL : string;
  CodeChallengeMethod : string
}.
Record Brand : Type := mkBrand { FullName : string }.
End cfg.

(** ** Logging *)

Inductive Level : Type := DebugLevel | InfoLevel | WarnLevel | ErrorLevel.

(** An argument of a logging call, kept as the value it is. *)
Inductive LogArg : Type :=
| AString (s : string)
| ABool (b : bool)
| AStrings (l : list string)
| AError (e : error)
| AUser (u : User.t)
| AADFSUser (u : ADFSUser.t)
| AClaims (c : CustomClaims.t).

(** One call of the logger: its level, format (or message) and arguments. *)
Record LogEntry : Type := Logf {
  level : Level;
  format : string;
  args : list LogArg
}.

(** ** [url.Values], requests and sessions *)

Module Values.
(** [v.Get(key)]: the first value of the key, or the empty string. *)
Definition Get (v : gmap string (list string)) (key : string) : string :=
  match v !! key with
  | Some (x :: _) => x
  | _ => ""
  end.
(** [v.Set(key, value)] *)
Definition Set_ (v : gmap string (list string)) (key value : string)
  : gmap string (list string) := <[key := [value]]> v.
End Values.

(** The part of an [*http.Request] the handlers read: the URL's raw query and
    the cookies (the session store finds its session by them). *)
Record Request : Type := mkRequest {
  RawQuery : string;
  Cookies : list (string * string)
}.

(** A value held in [session.Values] (a [map[interface{}]interface{}]): the
    handlers store strings and an [int]. *)
Inductive iface : Type :=
| IString (s : string)
| IInt (n : Z).

Module Session.
Record t : Type := mk {
  Values : gmap string iface;
  MaxAge : Z
}.
(** [session.Values[key] = v] *)
Definition setValue (s : t) (key : string) (v : iface) : t :=
  mk (<[key := v]> (Values s)) (MaxAge s).
(** [session.Options.MaxAge = n] *)
Definition setMaxAge (s : t) (n : Z) : t := mk (Values s) n.
End Session.

(** [v != s] for an interface value [v] (nil when the key is absent) and a
    string [s]: equal only when [v] holds that very string. *)
Definition ifaceEqString (v : option iface) (s : string) : bool :=
  match v with
  | Some (IString s') => String.eqb s' s
  | _ => false
  end.

(** The type assertion [v.(string)]; [None] is the run-time panic. *)
Definition assertString (v : option iface) : option string :=
  match v with
  | Some (IString s) => Some s
  | _ => None
  end.

(** The verb [%s] applied to an interface value. *)
Definition fmtIface (v : option iface) : string :=
  match v with
  | None => "%!s(<nil>)"
  | Some (IString s) => s
  | Some (IInt n) =>
      "%!s(int=" ++ NilZero.string_of_int (Z.to_int n) ++ ")"
  end.

(** ** Responses and the trace of a handler *)

(** The calls of [pkg/responses]. *)
Inductive Response : Type :=
| Error400 (e : error)
| Error401 (e : error)
| Error403 (e : error)
| Error500 (e : error)
| Redirect302 (url : string)
| RenderIndex (msg : string).

(** Modelled from the spec: [pkg/responses] is not part of the sources; each
    call answers with the status its name carries (sections 4.6 and 7), the
    rendered index page with 200. *)
Definition status (resp : Response) : nat :=
  match resp with
  | Error400 _ => 400
  | Error401 _ => 401
  | Error403 _ => 403
  | Error500 _ => 500
  | Redirect302 _ => 302
  | RenderIndex _ => 200
  end.

(** What a handler does, in order: log lines, calls of the collaborators
    with their outcome, and what reaches the response writer. *)
Inductive Event : Type :=
| Log (e : LogEntry)
| SessionGet (name : string) (err : option error)
| GetUserInfo (err : option error)
| VerifyUser (u : User.t) (ok : bool)
| NewVPJWT (tokenstring : string) (err : option error)
| SetCookie (tokenstring : string)
| SessionSave (s : Session.t) (err : option error)
| Respond (resp : Response)
| Panic.

Definition isLog (e : Event) : bool :=
  match e with Log _ => true | _ => false end.

(** The trace without its log lines. *)
Definition calls (tr : list Event) : list Event :=
  filter (fun e => negb (isLog e)) tr.

Fixpoint responses (tr : list Event) : list Response :=
  match tr with
  | [] => []
  | Respond resp :: tr' => resp :: responses tr'
  | _ :: tr' => responses tr'
  end.

Fixpoint cookiesSet (tr : list Event) : list string :=
  match tr with
  | [] => []
  | SetCookie tok :: tr' => tok :: cookiesSet tr'
  | _ :: tr' => cookiesSet tr'
  end.

(** A step of the /auth flow that failed, with the status the flow answers
    it with (sections 4.6 and 7 of the specification). *)
Definition failureStatus (e : Event) : option nat :=
  match e with
  | SessionGet _ (Some _) => Some 400
  | GetUserInfo (Some _) => Some 400
  | VerifyUser _ false => Some 403
  | NewVPJWT _ (Some _) => Some 500
  | _ => None
  end.


(** The text of an error response. *)
Definition message (resp : Response) : string :=
  match resp with
  | Error400 e | Error401 e | Error403 e | Error500 e => e
  | Redirect302 url => url
  | RenderIndex msg => msg
  end.

(** What a provider's [GetUserInfo] leaves behind: the error it returns, the
    three records it was handed (by pointer) and its log lines. *)
Record ProviderResult : Type := mkProviderResult {
  rerr : option error;
  outUser : User.t;
  outClaims : CustomClaims.t;
  outTokens : PTokens.t;
  outLog : list LogEntry
}.

(** [oauth2.SetAuthURLParam(key, value)] *)
Definition AuthCodeOption : Type := (string * string)%type.

(** ** The handlers ([handlers/auth.go]) *)

(** The authorization engine's answer: the two results of [verifyUser] and
    the lines it logged. *)
Record Verdict : Type := mkVerdict {
  allowed : bool;
  reason : option error;
  logged : list LogEntry
}.

(** The verb [%w] (or [%s]) applied to an [error] that may be nil. *)
Definition fmtError (e : option error) : string :=
  match e with
  | Some msg => msg
  | None => "%!w(<nil>)"
  end.

Section Handlers.

(** [strings.Map(unicode.ToLower, s)], the path [strings.ToLower] takes for a
    string that is not all ASCII. *)
Variable unicodeToLower : string -> string.

(** [domains.IsUnderManagement], over the configured [Domains]. *)
Variable IsUnderManagement : list string -> string -> bool.

(** [cfg.Cfg], [cfg.GenOAuth] and [cfg.Branding]. *)
Variable Cfg : cfg.Config.
Variable GenOAuth : cfg.OAuth.
Variable Branding : cfg.Brand.

(** [strings.ToLower]: ASCII-only strings are lowered byte by byte. *)
Definition ToLower (s : string) : string :=
  if GoString.isASCII s then GoString.asciiLower s else unicodeToLower s.

Definition isUsernameCaseInsensitive (user : User.t) : bool :=
  if cfg.CaseInsensitiveEmails Cfg then true
  else
    let lowerUsername := ToLower (User.Username user) in
    existsb
      (fun caseInsensitiveDomain =>
         GoString.HasSuffix lowerUsername ("@" +:+ ToLower caseInsensitiveDomain))
      (cfg.CaseInsensitiveEmailDomains Cfg).

(** The test of one whitelist entry. *)
Definition whiteListEntryMatches (user : User.t) (usernameIsCaseInsensitive : bool)
    (wl : string) : bool :=
  String.eqb (User.Username user) wl
  || (isEmailValid (User.Username user) && usernameIsCaseInsensitive
      && String.eqb (ToLower (User.Username user)) (ToLower wl)).

(** The two nested loops of the team whitelist: the first whitelist entry
    that equals a team of the user, teams first. *)
Fixpoint firstTeamMatch (teams : list string) (teamWhiteList : list string)
  : option string :=
  match teams with
  | [] => None
  | team :: rest =>
      match find (fun wl => String.eqb team wl) teamWhiteList with
      | Some wl => Some wl
      | None => firstTeamMatch rest teamWhiteList
      end
  end.

(** [verifyUser] validates that the domains match for the user. *)
Definition verifyUser (user : User.t) : Verdict :=
  if cfg.AllowAllUsers Cfg then
    mkVerdict true None
      [Logf DebugLevel
         "verifyUser: Success! skipping verification, cfg.Cfg.AllowAllUsers is %t"
         [ABool (cfg.AllowAllUsers Cfg)]]
  else if negb (Nat.eqb (length (cfg.WhiteList Cfg)) 0) then
    let usernameIsCaseInsensitive := isUsernameCaseInsensitive user in
    if existsb (whiteListEntryMatches user usernameIsCaseInsensitive) (cfg.WhiteList Cfg)
    then
      mkVerdict true None
        [Logf DebugLevel "verifyUser: Success! found user.Username in WhiteList: %s"
           [AString (User.Username user)]]
    else
      mkVerdict false
        (Some ("verifyUser: user.Username not found in WhiteList: " +:+ User.Username user))
        []
  else if negb (Nat.eqb (length (cfg.TeamWhiteList Cfg)) 0) then
    match firstTeamMatch (User.TeamMemberships user) (cfg.TeamWhiteList Cfg) with
    | Some wl =>
        mkVerdict true None
          [Logf DebugLevel
             "verifyUser: Success! found user.TeamWhiteList in TeamWhiteList: %s for user %s"
             [AString wl; AString (User.Username user)]]
    | None =>
        mkVerdict false
          (Some ("verifyUser: user.TeamMemberships "
                 +:+ GoString.fmtStrings (User.TeamMemberships user)
                 +:+ " not found in TeamWhiteList: "
                 +:+ GoString.fmtStrings (cfg.TeamWhiteList Cfg)
                 +:+ " for user " +:+ User.Username user))
          []
    end
  else if negb (Nat.eqb (length (cfg.Domains Cfg)) 0) then
    if IsUnderManagement (cfg.Domains Cfg) (User.Email user) then
      mkVerdict true None
        [Logf DebugLevel "verifyUser: Success! Email %s found within a %s managed domain"
           [AString (User.Email user); AString (cfg.FullName Branding)]]
    else
      mkVerdict false
        (Some ("verifyUser: Email " +:+ User.Email user +:+ " is not within a "
               +:+ cfg.FullName Branding +:+ " managed domain"))
        []
  else
    mkVerdict true None
      [Logf WarnLevel
         "verifyUser: no domains, whitelist, teamWhitelist or AllowAllUsers configured, any successful auth to the IdP authorizes access"
         []].

(** *** The collaborators of the two handlers *)

(** The session store's state, [sessstore.Get] and [session.Save]. *)
Variable Store : Type.
Variable sessstore_Get : Store -> Request -> string -> Session.t * option error.
Variable session_Save : Store -> Request -> Session.t -> Store * option error.

(** [provider.GetUserInfo], [jwtmanager.NewVPJWT] and [url.ParseQuery] (as
    [r.URL.Query()] uses it). *)
Variable provider_GetUserInfo :
  Request -> User.t -> CustomClaims.t -> PTokens.t -> list AuthCodeOption -> ProviderResult.
Variable jwtmanager_NewVPJWT :
  User.t -> CustomClaims.t -> PTokens.t -> string * option error.
Variable url_ParseQuery : string -> gmap string (list string).

(** [r.URL.Query()] *)
Definition Query (r : Request) : gmap string (list string) :=
  url_ParseQuery (RawQuery r).

(** A handler runs over the session store and leaves a trace; it yields no
    value once it has returned (or panicked). *)
Definition Handler (A : Type) : Type := Store -> list Event * Store * option A.

Definition ret {A : Type} (a : A) : Handler A := fun st => ([], st, Some a).

Definition bind {A B : Type} (m : Handler A) (k : A -> Handler B) : Handler B :=
  fun st =>
    match m st with
    | (t1, st1, Some a) =>
        match k a st1 with
        | (t2, st2, b) => (t1 ++ t2, st2, b)
        end
    | (t1, st1, None) => (t1, st1, None)
    end.

Notation "x <- m ;; k" := (bind m (fun x => k))
  (at level 100, m at next level, right associativity).
Notation "m ;;; k" := (bind m (fun _ => k))
  (at level 100, right associativity).

Definition emit (e : Event) : Handler unit := fun st => ([e], st, Some tt).

(** The handler's [return]. *)
Definition finish {A : Type} : Handler A := fun st => ([], st, None).

Definition logf (l : Level) (fmt : string) (a : list LogArg) : Handler unit :=
  emit (Log (Logf l fmt a)).

Definition respond (resp : Response) : Handler unit := emit (Respond resp).

(** A failed type assertion panics: the handler stops there. *)
Definition assertOrPanic (v : option string) : Handler string :=
  match v with
  | Some s => ret s
  | None => emit Panic ;;; finish
  end.

Definition sessstoreGet (r : Request) (name : string)
  : Handler (Session.t * option error) :=
  fun st =>
    let res := sessstore_Get st r name in
    ([SessionGet name (snd res)], st, Some res).

Definition sessionSave (r : Request) (s : Session.t) : Handler (option error) :=
  fun st =>
    let res := session_Save st r s in
    ([SessionSave s (snd res)], fst res, Some (snd res)).

Definition getUserInfo (r : Request) (user : User.t) (customClaims : CustomClaims.t)
    (ptokens : PTokens.t) (opts : list AuthCodeOption) : Handler ProviderResult :=
  fun st =>
    let res := provider_GetUserInfo r user customClaims ptokens opts in
    (map Log (outLog res) ++ [GetUserInfo (rerr res)], st, Some res).

Definition callVerifyUser (user : User.t) : Handler Verdict :=
  fun st =>
    let v := verifyUser user in
    (map Log (logged v) ++ [VerifyUser user (allowed v)], st, Some v).

Definition newVPJWT (user : User.t) (customClaims : CustomClaims.t)
    (ptokens : PTokens.t) : Handler (string * option error) :=
  fun st =>
    let res := jwtmanager_NewVPJWT user customClaims ptokens in
    ([NewVPJWT (fst res) (snd res)], st, Some res).

(** [CallbackHandler] /auth
    - redirects to /auth/{state}/ with the state coming from the query
      parameter *)
Definition CallbackHandler (r : Request) : Handler unit :=
  logf DebugLevel "/auth" [] ;;;
  (* did the IdP return an error? *)
  let errorIDP := Values.Get (Query r) "error" in
  if negb (String.eqb errorIDP "") then
    let errorDescription := Values.Get (Query r) "error_description" in
    respond (Error401 ("/auth Error from IdP: " +:+ errorIDP +:+ " - " +:+ errorDescription)) ;;;
    finish
  else
    let queryState := Values.Get (Query r) "state" in
    if String.eqb queryState "" then
      respond (Error400 ("/auth: could not find state in query " +:+ RawQuery r)) ;;;
      finish
    else
      let authStateURL := "/auth/" +:+ queryState +:+ "/?" +:+ RawQuery r in
      respond (Redirect302 authStateURL).

(** [AuthStateHandler] /auth/{state}/
    - validate info from oauth provider (Google, GitHub, OIDC, etc)
    - issue jwt in the form of a cookie *)
Definition AuthStateHandler (r : Request) : Handler unit :=
  logf DebugLevel "/auth/{state}/" [] ;;;
  got <- sessstoreGet r (cfg.SessionName Cfg) ;;
  let session := fst got in
  match snd got with
  | Some err =>
      respond (Error400 ("/auth " +:+ err +:+ ": could not find session store "
                         +:+ cfg.SessionName Cfg)) ;;;
      finish
  | None =>
  (* is the nonce "state" valid? *)
  let queryState := Values.Get (Query r) "state" in
  if negb (ifaceEqString (Session.Values session !! "state") queryState) then
    respond (Error400 ("/auth Invalid session state: stored "
                       +:+ fmtIface (Session.Values session !! "state")
                       +:+ ", returned " +:+ queryState)) ;;;
    finish
  else
  (* is code challenge enabled? *)
  authCodeOptions <-
    (if negb (String.eqb (cfg.CodeChallengeMethod GenOAuth) "") then
       codeChallenge <- assertOrPanic (assertString (Session.Values session !! "codeChallenge")) ;;
       codeVerifier <- assertOrPanic (assertString (Session.Values session !! "codeVerifier")) ;;
       ret [("code_challenge", codeChallenge); ("code_verifier", codeVerifier)]
     else ret []) ;;
  res <- getUserInfo r User.zero CustomClaims.zero PTokens.zero authCodeOptions ;;
  let user := outUser res in
  let customClaims := outClaims res in
  let ptokens := outTokens res in
  match rerr res with
  | Some err =>
      respond (Error400 ("/auth Error while retreiving user info after successful login at the OAuth provider: "
                         +:+ err)) ;;;
      finish
  | None =>
  logf DebugLevel "/auth/{state}/ Claims from userinfo: %+v" [AClaims customClaims] ;;;
  (* verify / authz the user *)
  v <- callVerifyUser user ;;
  if negb (allowed v) then
    respond (Error403 ("/auth User is not authorized: " +:+ fmtError (reason v)
                       +:+ " . Please try again or seek support from your administrator")) ;;;
    finish
  else
  (* SUCCESS!! they are authorized; issue the jwt *)
  minted <- newVPJWT user customClaims ptokens ;;
  let tokenstring := fst minted in
  match snd minted with
  | Some err =>
      respond (Error500 ("/auth Token creation failure: " +:+ err
                         +:+ " . Please seek support from your administrator")) ;;;
      finish
  | None =>
  emit (SetCookie tokenstring) ;;;
  (* get the originally requested URL so we can send them on their way *)
  requestedURL <- assertOrPanic (assertString (Session.Values session !! "requestedURL")) ;;
  if negb (String.eqb requestedURL "") then
    (* clear out the session value *)
    let session := Session.setValue session "requestedURL" (IString "") in
    let session := Session.setValue session requestedURL (IInt 0) in
    let session := Session.setMaxAge session (-1) in
    err <- sessionSave r session ;;
    (match err with
     | Some e => logf ErrorLevel "%v" [AError e]
     | None => ret tt
     end) ;;;
    respond (Redirect302 requestedURL) ;;;
    finish
  else
    (* otherwise serve an error *)
    respond (RenderIndex ("/auth " +:+ tokenstring))
  end end end.

End Handlers.

Arguments ret {Store A} a.
Arguments finish {Store A}.

(** The trace and the store a handler leaves. *)
Definition traceOf {Store A : Type} (res : list Event * Store * option A) : list Event :=
  fst (fst res).

Definition storeOf {Store A : Type} (res : list Event * Store * option A) : Store :=
  snd (fst res).

(** ** The ADFS adapter ([pkg/providers/adfs]) *)

Module adfs.

Record adfsTokenRes : Type := mkTokenRes {
  AccessToken : string;
  TokenType : string;
  IDToken : string;
  ExpiresIn : Z  (* relative seconds from now *)
}.

(** An outgoing [*http.Request]. *)
Record HttpRequest : Type := mkHttpRequest {
  Method : string;
  URL : string;
  Body : string;
  Header : list (string * string)
}.

(** [req.Header.Add(key, value)] *)
Definition HeaderAdd (req : HttpRequest) (key value : string) : HttpRequest :=
  mkHttpRequest (Method req) (URL req) (Body req) (Header req ++ [(key, value)]).

(** [req.Header.Set(key, value)] *)
Definition HeaderSet (req : HttpRequest) (key value : string) : HttpRequest :=
  mkHttpRequest (Method req) (URL req) (Body req)
    (filter (fun kv => negb (String.eqb (fst kv) key)) (Header req) ++ [(key, value)]).

(** What [client.Do] hands back: the bytes [ioutil.ReadAll] reads from the
    body and what [Body.Close] returns. *)
Record HttpResponse : Type := mkHttpResponse {
  bodyData : string;
  closeErr : option error
}.

(** [strconv.Itoa] of a length. *)
Definition Itoa (n : nat) : string := NilZero.string_of_uint (Nat.to_uint n).

(** The pattern of [rxEmail]: the one of [emailRegex]. *)
Definition rxEmail : Regexp := MustCompile true emailBody true.

Section Adapter.

Variable GenOAuth : cfg.OAuth.

(** [r.URL.Query()], [url.Values.Encode], [http.NewRequest], [client.Do]. *)
Variable url_ParseQuery : string -> gmap string (list string).
Variable Values_Encode : gmap string (list string) -> string.
Variable http_NewRequest : string -> string -> string -> HttpRequest + error.
Variable client_Do : HttpRequest -> HttpResponse + error.

(** [json.Unmarshal] into an [adfsTokenRes], [base64.RawURLEncoding]'s
    [DecodeString], [json.Unmarshal] into an [ADFSUser] (its error is
    dropped by the adapter: the record comes back as far as it was filled). *)
Variable json_Unmarshal_tokenRes : string -> adfsTokenRes + error.
Variable base64_RawURL_DecodeString : string -> string + error.
Variable json_Unmarshal_ADFSUser : string -> ADFSUser.t.

(** [common.MapClaims] and the method [PrepareUserData] of [ADFSUser]. *)
Variable common_MapClaims : string -> CustomClaims.t -> CustomClaims.t * option error.
Variable PrepareUserData : ADFSUser.t -> ADFSUser.t.

(** The deferred [userinfo.Body.Close()]: its error replaces the result. *)
Definition deferClose (userinfo : HttpResponse) (res : ProviderResult) : ProviderResult :=
  match closeErr userinfo with
  | Some err => mkProviderResult (Some err) (outUser res) (outClaims res) (outTokens res) (outLog res)
  | None => res
  end.

(** The request to the token endpoint that [GetUserInfoFromADFS] builds from
    the callback's [code] (its first lines, up to [client.Do]). *)
Definition tokenRequest (r : Request) : HttpRequest + error :=
  let code := Values.Get (url_ParseQuery (RawQuery r)) "code" in
  let formData := Values.Set_ ∅ "code" code in
  let formData := Values.Set_ formData "grant_type" "authorization_code" in
  let formData := Values.Set_ formData "resource" (cfg.RedirectURL GenOAuth) in
  let formData := Values.Set_ formData "client_id" (cfg.ClientID GenOAuth) in
  let formData := Values.Set_ formData "redirect_uri" (cfg.RedirectURL GenOAuth) in
  let formData :=
    if negb (String.eqb (cfg.ClientSecret GenOAuth) "")
    then Values.Set_ formData "client_secret" (cfg.ClientSecret GenOAuth)
    else formData in
  match http_NewRequest "POST" (cfg.TokenURL GenOAuth) (Values_Encode formData) with
  | inr err => inr err
  | inl req =>
      let req := HeaderAdd req "Content-Type" "application/x-www-form-urlencoded" in
      let req := HeaderAdd req "Content-Length" (Itoa (GoString.len (Values_Encode formData))) in
      let req := HeaderSet req "Accept" "application/json" in
      inl req
  end.

(** More info:
    https://docs.microsoft.com/en-us/windows-server/identity/ad-fs/overview/ad-fs-scenarios-for-developers#supported-scenarios *)
Definition GetUserInfoFromADFS (r : Request) (user : User.t)
    (customClaims : CustomClaims.t) (ptokens : PTokens.t) : ProviderResult :=
  let code := Values.Get (url_ParseQuery (RawQuery r)) "code" in
  let log0 := [Logf DebugLevel "code: %s" [AString code]] in
  match tokenRequest r with
  | inr err => mkProviderResult (Some err) user customClaims ptokens log0
  | inl req =>
  match client_Do req with
  | inr err => mkProviderResult (Some err) user customClaims ptokens log0
  | inl userinfo =>
  deferClose userinfo
  (let data := bodyData userinfo in
   match json_Unmarshal_tokenRes data with
   | inr err =>
       mkProviderResult None user customClaims ptokens
         (log0 ++ [Logf ErrorLevel "oauth2: cannot fetch token: %v" [AError err]])
   | inl tokenRes =>
   let ptokens := PTokens.mk (AccessToken tokenRes) (IDToken tokenRes) in
   let s := GoString.Split (IDToken tokenRes) "." in
   if Nat.ltb (length s) 2 then
     mkProviderResult None user customClaims ptokens
       (log0 ++ [Logf ErrorLevel "jws: invalid token received" []])
   else
   match base64_RawURL_DecodeString (nth 1 s "") with
   | inr err =>
       mkProviderResult None user customClaims ptokens
         (log0 ++ [Logf ErrorLevel "%v" [AError err]])
   | inl idToken =>
   let log1 := log0 ++ [Logf DebugLevel "idToken: %+v" [AString idToken]] in
   let adfsUser := json_Unmarshal_ADFSUser idToken in
   let log2 := log1 ++ [Logf InfoLevel "adfs adfsUser: %+v" [AADFSUser adfsUser]] in
   (* data contains an access token, refresh token, and id token *)
   let mapped := common_MapClaims idToken customClaims in
   let customClaims := fst mapped in
   match snd mapped with
   | Some err =>
       mkProviderResult (Some err) user customClaims ptokens
         (log2 ++ [Logf ErrorLevel "%v" [AError err]])
   | None =>
   let adfsUser := PrepareUserData adfsUser in
   let adfsUser :=
     if Nat.eqb (GoString.len (ADFSUser.Email adfsUser)) 0 then
       (* If the email is blank, we will try to determine if the UPN is an email. *)
       if MatchString rxEmail (ADFSUser.UPN adfsUser) then
         (* Set the email from UPN if there is a valid email present. *)
         ADFSUser.setEmail adfsUser (ADFSUser.UPN adfsUser)
       else adfsUser
     else adfsUser in
   let user := User.setUsername user (ADFSUser.Username adfsUser) in
   let user := User.setEmail user (ADFSUser.Email adfsUser) in
   mkProviderResult None user customClaims ptokens
     (log2 ++ [Logf DebugLevel "User Obj: %+v" [AUser user]])
   end end end)
  end end.

(** The adapter as the provider the handlers call; it does not read the
    auth-code options. *)
Definition GetUserInfo (r : Request) (user : User.t) (customClaims : CustomClaims.t)
    (ptokens : PTokens.t) (opts : list AuthCodeOption) : ProviderResult :=
  GetUserInfoFromADFS r user customClaims ptokens.

End Adapter.

End adfs.

(** ** The specification's reading of the policy *)

(** The policy modes of section 3 of the specification. *)
Inductive Mode : Type :=
| AllowAll
| UserWhitelist
| TeamWhitelist
| ManagedDomains
| NothingConfigured.

(** The mode in force: the modes in their priority order, a list counting
    when it is non-empty. *)
Definition activeMode (c : cfg.Config) : Mode :=
  if cfg.AllowAllUsers c then AllowAll
  else match cfg.WhiteList c, cfg.TeamWhiteList c, cfg.Domains c with
       | _ :: _, _, _ => UserWhitelist
       | [], _ :: _, _ => TeamWhitelist
       | [], [], _ :: _ => ManagedDomains
       | [], [], [] => NothingConfigured
       end.

(** The configuration with the settings of one mode only, every other mode
    switched off. *)
Definition onlyMode (m : Mode) (c : cfg.Config) : cfg.Config :=
  match m with
  | AllowAll => cfg.mkConfig true [] [] [] false [] (cfg.SessionName c)
  | UserWhitelist =>
      cfg.mkConfig false (cfg.WhiteList c) [] [] (cfg.CaseInsensitiveEmails c)
        (cfg.CaseInsensitiveEmailDomains c) (cfg.SessionName c)
  | TeamWhitelist => cfg.mkConfig false [] (cfg.TeamWhiteList c) [] false [] (cfg.SessionName c)
  | ManagedDomains => cfg.mkConfig false [] [] (cfg.Domains c) false [] (cfg.SessionName c)
  | NothingConfigured => cfg.mkConfig false [] [] [] false [] (cfg.SessionName c)
  end.

(** The domain of an e-mail address: what follows its first [@]. *)
Fixpoint emailDomain (s : string) : string :=
  match s with
  | EmptyString => EmptyString
  | String c s' => if Ascii.eqb c "@" then s' else emailDomain s'
  end.

(** [sub] occurs in [s]. *)
Definition Contains (s sub : string) : Prop :=
  exists before after, s = before +:+ sub +:+ after.

(** A byte other than [@]. *)
Definition noAt (c : ascii) : bool := negb (Ascii.eqb c "@").

(** The host part of the pattern: [label(?:\.label)*]. *)
Definition hostRe : regex := Cat labelRe (Star (Cat (Chr ".") labelRe)).

(** A byte of one of the pattern's classes. *)
Definition emailByte (c : ascii) : bool :=
  alphabet (Plus (Class localClass)) c || alphabet hostRe c.

(** The 256 bytes. *)
Definition allAscii : list ascii := map ascii_of_nat (seq 0 256).

Section PolicyReading.

Variable unicodeToLower : string -> string.

(** The domain of [name] is one of [CaseInsensitiveEmailDomains]; domain
    names are compared without regard to case. *)
Definition domainListed (c : cfg.Config) (name : string) : Prop :=
  exists d, In d (cfg.CaseInsensitiveEmailDomains c)
    /\ ToLower unicodeToLower (emailDomain name) = ToLower unicodeToLower d.

(** The comparison of [name] with the whitelist is case-folded: it is a
    valid e-mail address and either all e-mail addresses are compared so or
    its domain is listed. *)
Definition caseFolded (c : cfg.Config) (name : string) : Prop :=
  isEmailValid name = true
  /\ (cfg.CaseInsensitiveEmails c = true \/ domainListed c name).

(** Some team of the user is on the team whitelist. *)
Definition teamListed (c : cfg.Config) (u : User.t) : bool :=
  existsb (fun team => existsb (String.eqb team) (cfg.TeamWhiteList c))
    (User.TeamMemberships u).

End PolicyReading.

(** ** Sample configurations and collaborators

    Concrete values for the scenarios of section 8 of the specification;
    the examples below run the handlers on them. *)

Module Sample.

(** A stand-in for the non-ASCII path of [strings.ToLower]. *)
Definition lower (s : string) : string := s.

(** A stand-in for [domains.IsUnderManagement]: the address ends in [@d] or
    [.d] for a managed domain [d]. *)
Definition managed (domains : list string) (email : string) : bool :=
  existsb
    (fun d =>
       GoString.HasSuffix (GoString.asciiLower email) ("@" +:+ GoString.asciiLower d)
       || GoString.HasSuffix (GoString.asciiLower email) ("." +:+ GoString.asciiLower d))
    domains.

Definition brand : cfg.Brand := cfg.mkBrand "Vouch".

Definition cfgAllowAll : cfg.Config :=
  cfg.mkConfig true [] [] [] false [] "VouchSession".

(** Scenario S4. *)
Definition cfgWhiteList : cfg.Config :=
  cfg.mkConfig false ["bob@example.com"] [] [] false [] "VouchSession".

(** Scenario S5. *)
Definition cfgFolded : cfg.Config :=
  cfg.mkConfig false ["Bob@Example.com"] [] [] false ["example.com"] "VouchSession".

Definition bobUpper : User.t := User.mk "bob@EXAMPLE.COM" "" "bob@EXAMPLE.COM" [].

(** A query parser for the examples: [k=v] pairs separated by [&], no
    escapes. *)
Fixpoint splitAtEq (s : string) : string * string :=
  match s with
  | EmptyString => (EmptyString, EmptyString)
  | String c s' =>
      if Ascii.eqb c "=" then (EmptyString, s')
      else (String c (fst (splitAtEq s')), snd (splitAtEq s'))
  end.

Definition parseQuery (raw : string) : gmap string (list string) :=
  fold_left
    (fun m kv =>
       let k := fst (splitAtEq kv) in
       let v := snd (splitAtEq kv) in
       if String.eqb kv "" then m
       else <[k := default [] (m !! k) ++ [v]]> m)
    (GoString.Split raw "&") ∅.

(** A session store for the examples: it holds the sessions by the value of
    the session cookie; a session saved with a negative [MaxAge] is
    deleted, an unknown one is new and empty. *)
Definition cookieOf (r : Request) (name : string) : string :=
  match find (fun kv => String.eqb (fst kv) name) (Cookies r) with
  | Some kv => snd kv
  | None => ""
  end.

Definition newSession : Session.t := Session.mk ∅ 0.

Definition sessGet (st : gmap string Session.t) (r : Request) (name : string)
  : Session.t * option error :=
  (default newSession (st !! cookieOf r name), None).

Definition sessSave (st : gmap string Session.t) (r : Request) (s : Session.t)
  : gmap string Session.t * option error :=
  if Z.ltb (Session.MaxAge s) 0 then (delete (cookieOf r "VouchSession") st, None)
  else (<[cookieOf r "VouchSession" := s]> st, None).

(** A provider for the examples: the code [C1] is alice's, any other code
    is refused. *)
Definition alice : User.t := User.mk "alice" "" "alice@example.com" [].

Definition provider (r : Request) (user : User.t) (claims : CustomClaims.t)
    (ptokens : PTokens.t) (opts : list AuthCodeOption) : ProviderResult :=
  if String.eqb (Values.Get (parseQuery (RawQuery r)) "code") "C1"
  then mkProviderResult None alice claims (PTokens.mk "access" "id") []
  else mkProviderResult (Some "invalid_grant") user claims ptokens [].

(** A token manager for the examples. *)
Definition mint (u : User.t) (claims : CustomClaims.t) (ptokens : PTokens.t)
  : string * option error := ("jwt." +:+ User.Username u, None).

Definition oauth : cfg.OAuth :=
  cfg.mkOAuth "vouch" "secret" "https://idp/token" "https://vouch/auth" "".

Definition cfgDomains : cfg.Config :=
  cfg.mkConfig false [] [] ["example.com"] false [] "VouchSession".

(** Scenario S1: the callback [/auth?code=C1&state=S1] of a browser whose
    session holds the state [S1] and the requested URL. *)
Definition callbackS1 : Request :=
  mkRequest "code=C1&state=S1" [("VouchSession", "sid1")].

Definition sessionS1 (requestedURL : string) : Session.t :=
  Session.mk (<["state" := IString "S1"]> (<["requestedURL" := IString requestedURL]> ∅)) 300.

Definition storeS1 (requestedURL : string) : gmap string Session.t :=
  <["sid1" := sessionS1 requestedURL]> ∅.

(** Collaborators of the ADFS adapter for the examples: a token endpoint
    that answers with [body]; a JSON decoder that knows two token responses
    (the second with an id_token of one segment) and one id-token payload (scenario S6: no e-mail, the
    UPN [carol@corp.local]); a base64 decoder that hands its input back. *)
Definition encode (form : gmap string (list string)) : string :=
  "grant_type=authorization_code".

Definition newRequest (method url body : string) : adfs.HttpRequest + error :=
  inl (adfs.mkHttpRequest method url body []).

Definition clientDo (body : string) (req : adfs.HttpRequest) : adfs.HttpResponse + error :=
  inl (adfs.mkHttpResponse body None).

Definition unmarshalTokenRes (data : string) : adfs.adfsTokenRes + error :=
  if String.eqb data "{token response}"
  then inl (adfs.mkTokenRes "access" "bearer" "header.payload.signature" 3600)
  else if String.eqb data "{token response, id_token: not-a-jws}"
  then inl (adfs.mkTokenRes "access" "bearer" "not-a-jws" 3600)
  else inr "invalid character '<' looking for beginning of value".

Definition decodeString (s : string) : string + error := inl s.

Definition unmarshalADFSUser (idToken : string) : ADFSUser.t :=
  ADFSUser.mk "" "" "carol@corp.local".

Definition mapClaims (idToken : string) (claims : CustomClaims.t)
  : CustomClaims.t * option error := (claims, None).

(** A stand-in for [PrepareUserData]: the username is the UPN. *)
Definition prepare (a : ADFSUser.t) : ADFSUser.t :=
  ADFSUser.mk (ADFSUser.UPN a) (ADFSUser.Email a) (ADFSUser.UPN a).

(** The adapter against a token endpoint that answers with [body]. *)
Definition adfsProvider (body : string) (r : Request) (user : User.t)
    (claims : CustomClaims.t) (ptokens : PTokens.t) (opts : list AuthCodeOption)
  : ProviderResult :=
  adfs.GetUserInfo oauth parseQuery encode newRequest (clientDo body)
    unmarshalTokenRes decodeString unmarshalADFSUser mapClaims prepare
    r user claims ptokens opts.

Definition cfgCorp : cfg.Config :=
  cfg.mkConfig false [] [] ["corp.local"] false [] "VouchSession".

(** [/auth/{state}/] with the sample collaborators, for a configuration and
    a provider. *)
Definition authState (c : cfg.Config)
    (p : Request -> User.t -> CustomClaims.t -> PTokens.t -> list AuthCodeOption
         -> ProviderResult)
  : Request -> Handler (gmap string Session.t) unit :=
  AuthStateHandler lower managed c oauth brand (gmap string Session.t)
    sessGet sessSave p mint parseQuery.

End Sample.

(** ** Further readings of the handlers *)

(** The auth-code options [AuthStateHandler] builds ("is code challenge
    enabled?"): none without a [CodeChallengeMethod], otherwise the
    session's [codeChallenge] and [codeVerifier]; [None] when one of the two
    type assertions panics. *)
Definition sessionAuthCodeOptions (oauth : cfg.OAuth) (session : Session.t)
  : option (list AuthCodeOption) :=
  if negb (String.eqb (cfg.CodeChallengeMethod oauth) "") then
    match assertString (Session.Values session !! "codeChallenge") with
    | None => None
    | Some codeChallenge =>
        match assertString (Session.Values session !! "codeVerifier") with
        | None => None
        | Some codeVerifier =>
            Some [("code_challenge", codeChallenge); ("code_verifier", codeVerifier)]
        end
    end
  else Some [].

(** The session [AuthStateHandler] saves before it redirects to
    [requestedURL]. *)
Definition clearedSession (session : Session.t) (requestedURL : string) : Session.t :=
  Session.setMaxAge
    (Session.setValue (Session.setValue session "requestedURL" (IString ""))
       requestedURL (IInt 0))
    (-1).

Section AuthFlow.

Variable lower : string -> string.
Variable managed : list string -> string -> bool.
Variable c : cfg.Config.
Variable oauth : cfg.OAuth.
Variable brand : cfg.Brand.
Variable Store : Type.
Variable sessGet : Store -> Request -> string -> Session.t * option error.
Variable provider :
  Request -> User.t -> CustomClaims.t -> PTokens.t -> list AuthCodeOption -> ProviderResult.
Variable mint : User.t -> CustomClaims.t -> PTokens.t -> string * option error.
Variable parse : string -> gmap string (list string).

(** The request reaches the provider: the session is found and holds the
    state of the query, and the auth-code options are [opts]. *)
Definition reachesProvider (r : Request) (st : Store) (session : Session.t)
    (opts : list AuthCodeOption) : Prop :=
  sessGet st r (cfg.SessionName c) = (session, None)
  /\ ifaceEqString (Session.Values session !! "state")
       (Values.Get (Query parse r) "state") = true
  /\ sessionAuthCodeOptions oauth session = Some opts.

(** Every step up to the cookie succeeds: the provider answers [res]
    without an error, its user is allowed, and the token [tok] is minted. *)
Definition mintsToken (r : Request) (st : Store) (session : Session.t)
    (res : ProviderResult) (tok : string) : Prop :=
  exists opts,
    reachesProvider r st session opts
    /\ res = provider r User.zero CustomClaims.zero PTokens.zero opts
    /\ rerr res = None
    /\ allowed (verifyUser lower managed c brand (outUser res)) = true
    /\ mint (outUser res) (outClaims res) (outTokens res) = (tok, None).

End AuthFlow.

(** ** The claims' reading of a query parameter *)

(** The query string contains a non-empty value of the key, at whatever
    position among the key's values (the wording of the claims about
    [/auth]; the handler itself reads the first value, with [Get]). *)
Definition containsNonEmpty (q : gmap string (list string)) (key : string) : bool :=
  existsb (fun v => negb (String.eqb v "")) (default [] (q !! key)).

(** ** Further readings of the e-mail pattern *)

(** The class has a letter in both cases or in none. *)
Definition classFolds (ranges : list (ascii * ascii)) : bool :=
  forallb
    (fun ch => Bool.eqb (inClass (GoString.lowerByte ch) ranges) (inClass ch ranges))
    allAscii.

(** Every class of the expression does. *)
Fixpoint foldsCase (r : regex) : bool :=
  match r with
  | Void | Eps => true
  | Class ranges => classFolds ranges
  | Cat r1 r2 | Alt r1 r2 => foldsCase r1 && foldsCase r2
  | Star r1 => foldsCase r1
  end.

(** The last byte of a string ([d] for the empty string). *)
Fixpoint lastByte (s : string) (d : ascii) : ascii :=
  match s with
  | EmptyString => d
  | String ch s' => lastByte s' ch
  end.

(** A host label as the pattern has it: 1 to 63 letters, digits and
    hyphens, the first and the last not a hyphen. *)
Definition isHostLabel (label : string) : bool :=
  match label with
  | EmptyString => false
  | String ch rest =>
      Nat.leb (String.length label) 63
      && inClass ch alnum
      && inClass (lastByte rest ch) alnum
      && allBytes (fun b => inClass b alnumDash) label
  end.

(** The labels of the domain of an address. *)
Definition hostLabels (e : string) : list string :=
  GoString.Split (emailDomain e) ".".

(** A byte other than the dot. *)
Definition noDot (ch : ascii) : bool := negb (Ascii.eqb ch ".").

(** ** Further readings of the ADFS adapter *)

Section TokenForm.

Variable GenOAuth : cfg.OAuth.
Variable url_ParseQuery : string -> gmap string (list string).

(** The form [GetUserInfoFromADFS] posts to the token endpoint
    ([formData], after its [Set] calls). *)
Definition tokenForm (r : Request) : gmap string (list string) :=
  let code := Values.Get (url_ParseQuery (RawQuery r)) "code" in
  let formData := Values.Set_ ∅ "code" code in
  let formData := Values.Set_ formData "grant_type" "authorization_code" in
  let formData := Values.Set_ formData "resource" (cfg.RedirectURL GenOAuth) in
  let formData := Values.Set_ formData "client_id" (cfg.ClientID GenOAuth) in
  let formData := Values.Set_ formData "redirect_uri" (cfg.RedirectURL GenOAuth) in
  if negb (String.eqb (cfg.ClientSecret GenOAuth) "")
  then Values.Set_ formData "client_secret" (cfg.ClientSecret GenOAuth)
  else formData.

End TokenForm.

(** The segment of the id_token the adapter decodes: [s[1]]. *)
Definition payloadSegment (idToken : string) : string :=
  nth 1 (GoString.Split idToken ".") "".

(** ** The router of [main] ([main.go]) *)

Module main.

(** The handlers [main] registers. *)
Inductive Served : Type :=
| ValidateRequestHandler
| LoginHandler
| LogoutHandler
| CallbackHandler
| HealthcheckHandler
| StaticFiles
| WebSocket.

(** A route of the [mux] router: [HandleFunc]/[Handle] match the whole path
    against the template, [PathPrefix] a prefix of it. *)
Inductive Matcher : Type :=
| Path (template : string)
| PathPrefix (template : string).

Record Route : Type := mkRoute { matcher : Matcher; handler : Served }.

(** A byte other than the slash: a variable of a template matches [[^/]+]. *)
Definition notSlash : list (ascii * ascii) :=
  [(zero, "."%char); ("0"%char, ascii_of_nat 255)].

(** The expression of a path template: its text, with [[^/]+] for each
    [{name}]; [inVar] is set between the braces. *)
Fixpoint templateRe (inVar : bool) (template : string) : regex :=
  match template with
  | EmptyString => Eps
  | String ch rest =>
      if inVar then
        if Ascii.eqb ch "}" then templateRe false rest else templateRe true rest
      else if Ascii.eqb ch "{" then Cat (Plus (Class notSlash)) (templateRe true rest)
      else Cat (Chr ch) (templateRe false rest)
  end.

Definition matches (m : Matcher) (path : string) : bool :=
  match m with
  | Path template => fullMatch (templateRe false template) path
  | PathPrefix template =>
      fullMatch (Cat (templateRe false template) (Star AnyByte)) path
  end.

Definition staticDir : string := "/static/".

(** The routes in the order [main] adds them; [/ws] only with [WebApp]. *)
Definition routes (webApp : bool) : list Route :=
  [ mkRoute (Path "/validate") ValidateRequestHandler;
    mkRoute (Path "/_external-auth-{id}") ValidateRequestHandler;
    mkRoute (Path "/login") LoginHandler;
    mkRoute (Path "/logout") LogoutHandler;
    mkRoute (Path "/auth") CallbackHandler;
    mkRoute (Path "/healthcheck") HealthcheckHandler;
    mkRoute (PathPrefix staticDir) StaticFiles ]
  ++ (if webApp then [mkRoute (Path "/ws") WebSocket] else []).

(** The handler that serves a path: the one of the first route that
    matches; [None] is the router's 404. *)
Definition serve (webApp : bool) (path : string) : option Served :=
  match find (fun rt => matches (matcher rt) path) (routes webApp) with
  | Some rt => Some (handler rt)
  | None => None
  end.

End main.

(** The expression has no word. *)
Fixpoint dead (r : regex) : bool :=
  match r with
  | Void => true
  | Eps | Class _ | Star _ => false
  | Cat r1 r2 => dead r1 || dead r2
  | Alt r1 r2 => dead r1 && dead r2
  end.

(** The derivative by the bytes of a string, in order. *)
Fixpoint derivs (p : string) (r : regex) : regex :=
  match p with
  | EmptyString => r
  | String ch p' => derivs p' (deriv ch r)
  end.

(** ** More sample values *)

Module SampleMore.

Definition url : string := "https://app.example.com/x".

(** Callbacks whose query repeats a key with an empty first value. *)
Definition callbackTwoErrors : Request :=
  mkRequest "error=&error=access_denied&state=S1" [].


(** The flow of scenario S1 on a session with the given [requestedURL]. *)
Definition flowS1 (requestedURL : string)
  : list Event * gmap string Session.t * option unit :=
  Sample.authState Sample.cfgDomains Sample.provider Sample.callbackS1
    (Sample.storeS1 requestedURL).

(** What the sample provider answers to the callback of scenario S1. *)
Definition resS1 : ProviderResult :=
  Sample.provider Sample.callbackS1 User.zero CustomClaims.zero PTokens.zero [].

(** A session that holds the state but no [requestedURL]. *)
Definition sessionNoURL : Session.t :=
  Session.mk (<["state" := IString "S1"]> ∅) 300.

Definition storeNoURL : gmap string Session.t := <["sid1" := sessionNoURL]> ∅.

(** A configuration with a code challenge method, a session that holds the
    challenge and the verifier, and one that lacks the verifier. *)
Definition oauthPKCE : cfg.OAuth :=
  cfg.mkOAuth "vouch" "secret" "https://idp/token" "https://vouch/auth" "S256".


Definition sessionNoVerifier : Session.t :=
  Session.mk
    (<["state" := IString "S1"]> (<["codeChallenge" := IString "challenge"]> ∅)) 300.

Definition authStatePKCE (session : Session.t)
  : list Event * gmap string Session.t * option unit :=
  AuthStateHandler Sample.lower Sample.managed Sample.cfgDomains oauthPKCE Sample.brand
    (gmap string Session.t) Sample.sessGet Sample.sessSave Sample.provider Sample.mint
    Sample.parseQuery Sample.callbackS1 (<["sid1" := session]> ∅).

(** A token endpoint whose body cannot be closed, and one that answers the
    code [C1] and every other code with id_tokens that differ in header and
    signature only. *)
Definition clientDoCloseFails (req : adfs.HttpRequest) : adfs.HttpResponse + error :=
  inl (adfs.mkHttpResponse "{token response}" (Some "close failed")).

Definition encodeCode (form : gmap string (list string)) : string :=
  Values.Get form "code".

Definition clientDoByCode (req : adfs.HttpRequest) : adfs.HttpResponse + error :=
  inl (adfs.mkHttpResponse
         (if String.eqb (adfs.Body req) "C1" then "{token response}"
          else "{token response, unsigned}")
         None).

Definition unmarshalTokenRes (data : string) : adfs.adfsTokenRes + error :=
  if String.eqb data "{token response}"
  then inl (adfs.mkTokenRes "access" "bearer" "header.payload.signature" 3600)
  else if String.eqb data "{token response, unsigned}"
  then inl (adfs.mkTokenRes "access" "bearer" "none.payload." 3600)
  else inr "unexpected end of JSON input".

Definition callbackC2 : Request :=
  mkRequest "code=C2&state=S1" [("VouchSession", "sid1")].

(** The adapter against a given HTTP client. *)
Definition adfsWith (encode : gmap string (list string) -> string)
    (clientDo : adfs.HttpRequest -> adfs.HttpResponse + error)
    (r : Request) : ProviderResult :=
  adfs.GetUserInfoFromADFS Sample.oauth Sample.parseQuery encode Sample.newRequest
    clientDo unmarshalTokenRes Sample.decodeString Sample.unmarshalADFSUser
    Sample.mapClaims Sample.prepare r User.zero CustomClaims.zero PTokens.zero.

End SampleMore.
(** ** The derivative matcher decides the language *)

Module RegexpFacts.

Lemma append_nil_l (s : string) : (EmptyString ++ s)%string = s.
Proof. reflexivity. Qed.

Lemma append_cons c (s1 s2 : string) :
  (String c s1 ++ s2)%string = String c (s1 ++ s2).
Proof. reflexivity. Qed.

Ltac str_simpl := simpl; rewrite ?append_nil_l, ?append_cons; simpl.

Lemma append_nil_inv (s1 s2 : string) :
  (s1 ++ s2)%string = EmptyString -> s1 = EmptyString /\ s2 = EmptyString.
Proof. destruct s1; str_simpl; [tauto | discriminate]. Qed.

Lemma append_cons_inv (s1 s2 : string) c s :
  (s1 ++ s2)%string = String c s ->
  (s1 = EmptyString /\ s2 = String c s)
  \/ exists s1', s1 = String c s1' /\ s = (s1' ++ s2)%string.
Proof.
  destruct s1 as [|a s1]; str_simpl; intros H.
  - left; auto.
  - right. inversion H; subst. eauto.
Qed.

Lemma append_nil_r (s : string) : (s ++ EmptyString)%string = s.
Proof. induction s; str_simpl; congruence. Qed.

Lemma append_assoc (s1 s2 s3 : string) :
  ((s1 ++ s2) ++ s3)%string = (s1 ++ (s2 ++ s3))%string.
Proof. induction s1; str_simpl; congruence. Qed.

Lemma nullable_sound r : nullable r = true -> lang r EmptyString.
Proof.
  induction r; simpl; intros H; try discriminate.
  - constructor.
  - apply andb_prop in H as [H1 H2].
    change EmptyString with (EmptyString ++ EmptyString)%string.
    constructor; auto.
  - apply orb_prop in H as [H|H]; [apply lang_alt_l | apply lang_alt_r]; auto.
  - constructor.
Qed.

Lemma nullable_complete r s : lang r s -> s = EmptyString -> nullable r = true.
Proof.
  induction 1; simpl; intros E; try reflexivity; try discriminate.
  - apply append_nil_inv in E as [-> ->]. rewrite IHlang1, IHlang2; auto.
  - rewrite IHlang; auto.
  - rewrite IHlang, orb_true_r; auto.
Qed.

Lemma nullable_lang r : nullable r = true <-> lang r EmptyString.
Proof. split; [apply nullable_sound | intros; eapply nullable_complete; eauto]. Qed.

Lemma deriv_sound c r : forall s, lang (deriv c r) s -> lang r (String c s).
Proof.
  induction r; simpl; intros s H.
  - inversion H.
  - inversion H.
  - destruct (inClass c ranges) eqn:E; inversion H; subst. constructor; auto.
  - destruct (nullable r1) eqn:N.
    + inversion H; subst.
      * inversion H3; subst.
        change (String c (s1 ++ s2)) with (String c s1 ++ s2)%string.
        constructor; auto.
      * change (String c s) with (EmptyString ++ String c s)%string.
        constructor; auto. apply nullable_sound; auto.
    + inversion H; subst.
      change (String c (s1 ++ s2)) with (String c s1 ++ s2)%string.
      constructor; auto.
  - inversion H; subst; [apply lang_alt_l | apply lang_alt_r]; auto.
  - inversion H; subst.
    change (String c (s1 ++ s2)) with (String c s1 ++ s2)%string.
    constructor; auto.
Qed.

Lemma deriv_complete r w :
  lang r w -> forall c s, w = String c s -> lang (deriv c r) s.
Proof.
  induction 1; intros a t E; simpl.
  - discriminate.
  - inversion E; subst. rewrite H. constructor.
  - apply append_cons_inv in E as [[-> ->] | (s1' & -> & ->)].
    + rewrite (nullable_complete _ _ H eq_refl).
      apply lang_alt_r. eapply IHlang2; eauto.
    + destruct (nullable r1).
      * apply lang_alt_l. constructor; eauto.
      * constructor; eauto.
  - apply lang_alt_l. eapply IHlang; eauto.
  - apply lang_alt_r. eapply IHlang; eauto.
  - discriminate.
  - apply append_cons_inv in E as [[-> ->] | (s1' & -> & ->)].
    + eapply IHlang2; eauto.
    + constructor; eauto.
Qed.

Lemma deriv_lang c r s : lang (deriv c r) s <-> lang r (String c s).
Proof. split; [apply deriv_sound | intros; eapply deriv_complete; eauto]. Qed.

(** [fullMatch] computes membership in the language. *)
Lemma fullMatch_lang s : forall r, fullMatch r s = true <-> lang r s.
Proof.
  induction s as [|c s IH]; intros r; simpl.
  - apply nullable_lang.
  - rewrite IH. apply deriv_lang.
Qed.

Lemma allBytes_app p (s1 s2 : string) :
  allBytes p (s1 ++ s2) = allBytes p s1 && allBytes p s2.
Proof.
  induction s1; str_simpl; [reflexivity | rewrite IHs1, andb_assoc; reflexivity].
Qed.

Lemma allBytes_weaken (p q : ascii -> bool) s :
  (forall c, p c = true -> q c = true) -> allBytes p s = true -> allBytes q s = true.
Proof.
  intros Hpq. induction s; simpl; auto.
  intros H. apply andb_prop in H as [H1 H2]. rewrite (Hpq _ H1), IHs; auto.
Qed.

(** A word of the language only has bytes of the expression's classes. *)
Lemma lang_alphabet r s : lang r s -> allBytes (alphabet r) s = true.
Proof.
  induction 1; simpl; auto.
  - rewrite H; reflexivity.
  - rewrite allBytes_app. apply andb_true_intro; split.
    + eapply allBytes_weaken; [|exact IHlang1]. intros c Hc; simpl. rewrite Hc; auto.
    + eapply allBytes_weaken; [|exact IHlang2]. intros c Hc; simpl. rewrite Hc, orb_true_r; auto.
  - eapply allBytes_weaken; [|exact IHlang]. intros c Hc; simpl. rewrite Hc; auto.
  - eapply allBytes_weaken; [|exact IHlang]. intros c Hc; simpl. rewrite Hc, orb_true_r; auto.
  - rewrite allBytes_app. apply andb_true_intro; split; [|exact IHlang2].
    eapply allBytes_weaken; [|exact IHlang1]. intros c Hc; exact Hc.
Qed.

(** An anchored pattern matches exactly the words of its body. *)
Lemma MatchString_anchored r s :
  MatchString (MustCompile true r true) s = true <-> lang r s.
Proof.
  unfold MatchString; simpl. rewrite fullMatch_lang. split.
  - intros H. inversion H; subst. inversion H2; subst.
    inversion H4; subst. inversion H6; subst.
    rewrite append_nil_l, append_nil_r. assumption.
  - intros H. change s with (EmptyString ++ s)%string. constructor; [constructor|].
    rewrite <- (append_nil_r s). constructor; [assumption | constructor].
Qed.

End RegexpFacts.

(** ** Sanity checks of the matcher *)

Example isEmailValid_ok : isEmailValid "alice@example.com" = true.
Proof. vm_compute. reflexivity. Qed.

Example isEmailValid_caps : isEmailValid "bob@EXAMPLE.COM" = true.
Proof. vm_compute. reflexivity. Qed.

Example isEmailValid_short : isEmailValid "a@" = false.
Proof. vm_compute. reflexivity. Qed.

Example isEmailValid_two_at : isEmailValid "a@b@c.org" = false.
Proof. vm_compute. reflexivity. Qed.

Example isEmailValid_dash_end : isEmailValid "a@b-.org" = false.
Proof. vm_compute. reflexivity. Qed.

Example isEmailValid_long_label :
  isEmailValid ("a@" ++ GoString.Join (repeat "abcdefgh" 8) "" ++ ".org") = false
  /\ isEmailValid ("a@" ++ GoString.Join (repeat "abcdefgh" 7) "" ++ "abcdefg.org") = true.
Proof. vm_compute. split; reflexivity. Qed.

Example Split_jws : GoString.Split "aa.bb.cc" "." = ["aa"; "bb"; "cc"].
Proof. reflexivity. Qed.

Example Split_empty : GoString.Split "" "." = [""].
Proof. reflexivity. Qed.

(** ** The shape of a valid e-mail address *)

Module EmailFacts.
Import RegexpFacts.

Lemma forall_ascii (p : ascii -> bool) :
  forallb p allAscii = true -> forall c, p c = true.
Proof.
  intros H c. rewrite forallb_forall in H. apply H.
  unfold allAscii. rewrite <- (ascii_nat_embedding c) at 1.
  apply in_map, in_seq. pose proof (nat_ascii_bounded c). lia.
Qed.

Lemma forall_ascii_impl (p q : ascii -> bool) :
  forallb (fun c => implb (p c) (q c)) allAscii = true ->
  forall c, p c = true -> q c = true.
Proof.
  intros H c Hp. pose proof (forall_ascii _ H c) as Hc. simpl in Hc.
  rewrite Hp in Hc. exact Hc.
Qed.

Ltac by_bytes := apply forall_ascii_impl; vm_compute; reflexivity.

Lemma alphabet_UpTo n r c : alphabet (UpTo n r) c = true -> alphabet r c = true.
Proof.
  induction n; simpl; [discriminate|].
  rewrite orb_false_r. intros H. apply orb_prop in H as [H|H]; auto.
Qed.

Lemma hostByte_spec c :
  alphabet hostRe c = true -> inClass c (("." , ".")%char :: alnumDash) = true.
Proof.
  unfold hostRe, labelRe, Opt, Chr. simpl alphabet.
  intros H.
  repeat match type of H with
         | (_ || _) = true => apply orb_prop in H as [H|H]
         | false = true => discriminate
         | alphabet (UpTo _ _) _ = true => apply alphabet_UpTo in H; simpl in H
         end;
  revert H; generalize c; by_bytes.
Qed.

Lemma localByte_spec c :
  alphabet (Plus (Class localClass)) c = true -> inClass c localClass = true.
Proof. simpl. rewrite orb_diag. auto. Qed.

Lemma emailByte_ascii_noAt c :
  emailByte c = true ->
  GoString.isASCIIbyte c = true /\ noAt c = true /\ noAt (GoString.lowerByte c) = true.
Proof.
  unfold emailByte. intros H.
  assert (Hc : inClass c (("." , ".")%char :: localClass) = true).
  { apply orb_prop in H as [H|H].
    - apply localByte_spec in H. revert H; generalize c; by_bytes.
    - apply hostByte_spec in H. revert H; generalize c; by_bytes. }
  assert (G : GoString.isASCIIbyte c && noAt c && noAt (GoString.lowerByte c) = true).
  { revert Hc; generalize c; by_bytes. }
  apply andb_prop in G as [G G3]. apply andb_prop in G as [G1 G2]. auto.
Qed.

Lemma isASCII_allBytes s : GoString.isASCII s = allBytes GoString.isASCIIbyte s.
Proof. induction s; simpl; congruence. Qed.

Lemma isASCII_app (s1 s2 : string) :
  GoString.isASCII (s1 ++ s2) = GoString.isASCII s1 && GoString.isASCII s2.
Proof. rewrite !isASCII_allBytes. apply allBytes_app. Qed.

Lemma asciiLower_app (s1 s2 : string) :
  GoString.asciiLower (s1 ++ s2) = (GoString.asciiLower s1 ++ GoString.asciiLower s2)%string.
Proof. induction s1; str_simpl; congruence. Qed.

Lemma emailBytes_ascii s : allBytes emailByte s = true -> GoString.isASCII s = true.
Proof.
  rewrite isASCII_allBytes. apply allBytes_weaken.
  intros c Hc. apply emailByte_ascii_noAt in Hc. tauto.
Qed.

Lemma emailBytes_noAt s : allBytes emailByte s = true -> allBytes noAt s = true.
Proof.
  apply allBytes_weaken. intros c Hc. apply emailByte_ascii_noAt in Hc. tauto.
Qed.

Lemma emailBytes_lower_noAt s :
  allBytes emailByte s = true -> allBytes noAt (GoString.asciiLower s) = true.
Proof.
  induction s; simpl; auto. intros H. apply andb_prop in H as [H1 H2].
  apply emailByte_ascii_noAt in H1 as (_ & _ & ->). simpl. auto.
Qed.

Lemma emailDomain_split (l h : string) :
  allBytes noAt l = true -> emailDomain (l ++ String "@" h) = h.
Proof.
  induction l as [|c l IH]; str_simpl; auto.
  intros H. apply andb_prop in H as [H1 H2]. unfold noAt in H1.
  destruct (Ascii.eqb c "@"); [discriminate | auto].
Qed.

Lemma HasSuffix_noAt s x :
  allBytes noAt s = true -> GoString.HasSuffix s (String "@" x) = false.
Proof.
  induction s as [|c s IH]; simpl; auto.
  intros H. apply andb_prop in H as [H1 H2]. unfold noAt in H1.
  destruct (Ascii.eqb c "@"); [discriminate | simpl; auto].
Qed.

(** A suffix that starts with [@] starts at the only [@] of the string. *)
Lemma HasSuffix_at (l h x : string) :
  allBytes noAt l = true -> allBytes noAt h = true ->
  GoString.HasSuffix (l ++ String "@" h) (String "@" x) = String.eqb h x.
Proof.
  intros Hl Hh. induction l as [|c l IH]; str_simpl.
  - rewrite (HasSuffix_noAt _ _ Hh), orb_false_r. reflexivity.
  - apply andb_prop in Hl as [H1 H2]. unfold noAt in H1.
    destruct (Ascii.eqb c "@"); [discriminate | simpl; auto].
Qed.

(** A string the pattern accepts is [local@host]: both parts are non-empty
    and made of the bytes of the pattern's classes. *)
Lemma lang_emailBody_shape s :
  lang emailBody s ->
  exists l h, s = (l ++ String "@" h)%string
    /\ allBytes emailByte l = true /\ allBytes emailByte h = true
    /\ l <> EmptyString /\ h <> EmptyString.
Proof.
  unfold emailBody. intros H.
  inversion H as [| |r1 r2 l s2 Hl H2| | | |]; subst; clear H.
  inversion H2 as [| |r1 r2 s3 h H3 Hh| | | |]; subst; clear H2.
  inversion H3 as [|rs c Hc| | | | |]; subst; clear H3.
  assert (c = "@"%char) as ->.
  { apply Ascii.eqb_eq. revert Hc. generalize c. by_bytes. }
  exists l, h. str_simpl. split; [reflexivity|].
  split; [|split; [|split]].
  - eapply allBytes_weaken; [|apply (lang_alphabet _ _ Hl)].
    intros a Ha. unfold emailByte. rewrite Ha. reflexivity.
  - eapply allBytes_weaken; [|apply (lang_alphabet _ _ Hh)].
    intros a Ha. unfold emailByte, hostRe. rewrite Ha. apply orb_true_r.
  - intros ->. pose proof (nullable_complete _ _ Hl eq_refl) as Hn. discriminate.
  - intros ->. pose proof (nullable_complete _ _ Hh eq_refl) as Hn. discriminate.
Qed.

Lemma isEmailValid_lang e : isEmailValid e = true -> lang emailBody e.
Proof.
  unfold isEmailValid. destruct (_ || _); [discriminate|].
  apply MatchString_anchored.
Qed.

Lemma isEmailValid_shape e :
  isEmailValid e = true ->
  exists l h, e = (l ++ String "@" h)%string
    /\ allBytes emailByte l = true /\ allBytes emailByte h = true
    /\ l <> EmptyString /\ h <> EmptyString.
Proof. intros H. apply lang_emailBody_shape, isEmailValid_lang, H. Qed.

(** Every string the pattern accepts is ASCII. *)
Lemma lang_emailBody_ascii s : lang emailBody s -> GoString.isASCII s = true.
Proof.
  intros H. apply lang_emailBody_shape in H as (l & h & -> & Hl & Hh & _).
  rewrite isASCII_app. simpl.
  rewrite (emailBytes_ascii _ Hl), (emailBytes_ascii _ Hh). reflexivity.
Qed.

End EmailFacts.

(** ** The authorization engine *)

Section VerifyUserFacts.
Import RegexpFacts EmailFacts.

Variable lower : string -> string.
Variable managed : list string -> string -> bool.
Variable brand : cfg.Brand.

Lemma ToLower_ascii s :
  GoString.isASCII s = true -> ToLower lower s = GoString.asciiLower s.
Proof. unfold ToLower. intros ->. reflexivity. Qed.

Lemma existsb_eq {A} (f g : A -> bool) l :
  (forall x, f x = g x) -> existsb f l = existsb g l.
Proof. intros E. induction l; simpl; [reflexivity | rewrite E, IHl; reflexivity]. Qed.

Lemma firstTeamMatch_teamListed c u :
  teamListed c u = true <->
  exists wl, firstTeamMatch (User.TeamMemberships u) (cfg.TeamWhiteList c) = Some wl.
Proof.
  unfold teamListed. generalize (cfg.TeamWhiteList c) as twl.
  induction (User.TeamMemberships u) as [|team rest IH]; intros twl; simpl.
  - split; [discriminate | intros [wl H]; discriminate].
  - destruct (find (fun wl => String.eqb team wl) twl) as [wl|] eqn:F.
    + assert (existsb (String.eqb team) twl = true) as ->.
      { apply find_some in F as [Hin He]. apply existsb_exists. eauto. }
      simpl. split; eauto.
    + assert (existsb (String.eqb team) twl = false) as ->.
      { apply not_true_is_false. intros E. apply existsb_exists in E as (x & Hin & He).
        pose proof (find_none _ _ F x Hin) as N. simpl in N. congruence. }
      simpl. apply IH.
Qed.

(** The decision of [verifyUser], mode by mode. *)
Lemma verifyUser_allowed c u :
  allowed (verifyUser lower managed c brand u) =
  match activeMode c with
  | AllowAll | NothingConfigured => true
  | UserWhitelist =>
      existsb (whiteListEntryMatches lower u (isUsernameCaseInsensitive lower c u))
        (cfg.WhiteList c)
  | TeamWhitelist => teamListed c u
  | ManagedDomains => managed (cfg.Domains c) (User.Email u)
  end.
Proof.
  unfold verifyUser, activeMode.
  destruct (cfg.AllowAllUsers c); [reflexivity|].
  destruct (cfg.WhiteList c) as [|w ws] eqn:W.
  2:{ cbn [length Nat.eqb negb]. destruct (existsb _ _); reflexivity. }
  cbn [length Nat.eqb negb].
  destruct (cfg.TeamWhiteList c) as [|t ts] eqn:T.
  2:{ cbn [length Nat.eqb negb].
      destruct (firstTeamMatch _ _) as [wl|] eqn:F; cbn [allowed]; symmetry.
      - apply firstTeamMatch_teamListed. rewrite T. eauto.
      - apply not_true_is_false. intros E.
        apply firstTeamMatch_teamListed in E as [wl E]. rewrite T in E. congruence. }
  cbn [length Nat.eqb negb].
  destruct (cfg.Domains c) as [|d ds] eqn:D.
  - reflexivity.
  - cbn [length Nat.eqb negb]. destruct (managed _ _); reflexivity.
Qed.

Lemma activeMode_onlyMode c : activeMode (onlyMode (activeMode c) c) = activeMode c.
Proof.
  unfold activeMode, onlyMode.
  destruct (cfg.AllowAllUsers c); [reflexivity|].
  destruct (cfg.WhiteList c) eqn:W; [|reflexivity].
  destruct (cfg.TeamWhiteList c) eqn:T; [|reflexivity].
  destruct (cfg.Domains c) eqn:D; reflexivity.
Qed.

(** With nothing configured the warning is logged. *)
Lemma verifyUser_warns c u :
  activeMode c = NothingConfigured ->
  exists entry, logged (verifyUser lower managed c brand u) = [entry]
    /\ level entry = WarnLevel.
Proof.
  unfold activeMode, verifyUser.
  destruct (cfg.AllowAllUsers c); [discriminate|].
  destruct (cfg.WhiteList c); [|discriminate].
  destruct (cfg.TeamWhiteList c); [|discriminate].
  destruct (cfg.Domains c); [|discriminate].
  intros _. simpl. eauto.
Qed.

(** The username of a valid e-mail address is treated without regard to case
    exactly when all addresses are, or its domain is listed. *)
Lemma isUsernameCaseInsensitive_email c u :
  isEmailValid (User.Username u) = true ->
  (isUsernameCaseInsensitive lower c u = true <->
   cfg.CaseInsensitiveEmails c = true \/ domainListed lower c (User.Username u)).
Proof.
  intros V. unfold isUsernameCaseInsensitive, domainListed.
  destruct (cfg.CaseInsensitiveEmails c); [tauto|]. cbv iota.
  destruct (isEmailValid_shape _ V) as (l & h & E & Hl & Hh & _).
  rewrite E.
  assert (A : GoString.isASCII (l ++ String "@" h) = true).
  { rewrite isASCII_app. simpl. rewrite (emailBytes_ascii _ Hl), (emailBytes_ascii _ Hh). reflexivity. }
  rewrite (ToLower_ascii _ A), asciiLower_app.
  rewrite (emailDomain_split _ _ (emailBytes_noAt _ Hl)).
  rewrite (ToLower_ascii _ (emailBytes_ascii _ Hh)).
  change (GoString.asciiLower (String "@" h)) with (String "@" (GoString.asciiLower h)).
  rewrite existsb_exists. split.
  - intros (d & Hin & Hs). right. exists d. split; [assumption|].
    change ("@" +:+ ToLower lower d) with (String "@" (ToLower lower d)) in Hs.
    rewrite HasSuffix_at in Hs by auto using emailBytes_lower_noAt.
    apply String.eqb_eq, Hs.
  - intros [H|(d & Hin & Hd)]; [discriminate|]. exists d. split; [assumption|].
    change ("@" +:+ ToLower lower d) with (String "@" (ToLower lower d)).
    rewrite HasSuffix_at by auto using emailBytes_lower_noAt.
    apply String.eqb_eq, Hd.
Qed.

(** One whitelist entry matches: the very string, or a case-folded equal. *)
Lemma whiteListEntryMatches_spec c u wl :
  whiteListEntryMatches lower u (isUsernameCaseInsensitive lower c u) wl = true <->
  User.Username u = wl
  \/ (caseFolded lower c (User.Username u)
      /\ ToLower lower (User.Username u) = ToLower lower wl).
Proof.
  unfold whiteListEntryMatches, caseFolded.
  rewrite orb_true_iff, !andb_true_iff, !String.eqb_eq. split.
  - intros [H|[[V CI] L]]; [left; assumption|right].
    rewrite (isUsernameCaseInsensitive_email c u V) in CI. tauto.
  - intros [H|[[V CI] L]]; [left; assumption|right].
    rewrite <- (isUsernameCaseInsensitive_email c u V) in CI. tauto.
Qed.

(** C2. [verifyUser] takes the modes in the order AllowAll, WhiteList,
    TeamWhiteList, Domains, a list counting when it is non-empty: its
    decision is the one of the first such mode alone (the same as with every
    other mode switched off), namely the table of section 4.5; with nothing
    configured the user is allowed and a warning is logged. *)
Theorem verifyUser_first_matching_mode (c : cfg.Config) (u : User.t) :
  allowed (verifyUser lower managed c brand u)
    = allowed (verifyUser lower managed (onlyMode (activeMode c) c) brand u)
  /\ allowed (verifyUser lower managed c brand u)
      = match activeMode c with
        | AllowAll => true
        | UserWhitelist =>
            existsb (whiteListEntryMatches lower u (isUsernameCaseInsensitive lower c u))
              (cfg.WhiteList c)
        | TeamWhitelist => teamListed c u
        | ManagedDomains => managed (cfg.Domains c) (User.Email u)
        | NothingConfigured => true
        end
  /\ (activeMode c = NothingConfigured ->
      allowed (verifyUser lower managed c brand u) = true
      /\ exists entry, In entry (logged (verifyUser lower managed c brand u))
                       /\ level entry = WarnLevel).
Proof.
  split; [|split].
  - rewrite !verifyUser_allowed, activeMode_onlyMode.
    destruct (activeMode c); reflexivity.
  - rewrite verifyUser_allowed. destruct (activeMode c); reflexivity.
  - intros M. split.
    + rewrite verifyUser_allowed, M. reflexivity.
    + destruct (verifyUser_warns c u M) as (entry & E & L).
      exists entry. rewrite E. split; [left; reflexivity | exact L].
Qed.

(** C1 (amended). A user whose [Username] is empty is denied exactly when
    the whitelist decides and has no empty entry, or the team whitelist
    decides and lists none of the user's teams, or the managed domains
    decide and the e-mail address is not under management; with
    [AllowAllUsers], or with nothing configured, the user is allowed. *)
Theorem verifyUser_empty_username (c : cfg.Config) (u : User.t) :
  User.Username u = "" ->
  (allowed (verifyUser lower managed c brand u) = false <->
   (activeMode c = UserWhitelist /\ ~ In "" (cfg.WhiteList c))
   \/ (activeMode c = TeamWhitelist /\ teamListed c u = false)
   \/ (activeMode c = ManagedDomains
       /\ managed (cfg.Domains c) (User.Email u) = false)).
Proof.
  intros E. rewrite verifyUser_allowed.
  assert (W : existsb (whiteListEntryMatches lower u (isUsernameCaseInsensitive lower c u))
                (cfg.WhiteList c) = false <-> ~ In "" (cfg.WhiteList c)).
  { rewrite <- not_true_iff_false, existsb_exists. unfold whiteListEntryMatches.
    rewrite E. split; intros N H; apply N.
    - exists "". split; [assumption | reflexivity].
    - destruct H as (wl & Hin & Hm).
      change (isEmailValid "") with false in Hm. simpl in Hm.
      rewrite orb_false_r in Hm. destruct wl; [assumption | discriminate]. }
  destruct (activeMode c); split;
    try (intros H; discriminate H);
    try (intros [[H1 H2]|[[H1 H2]|[H1 H2]]]; try discriminate H1; try exact H2;
         try (apply W; exact H2)).
  - intros H. left. split; [reflexivity | apply W, H].
  - intros H. right; left. auto.
  - intros H. right; right. auto.
Qed.

(** C4. In WhiteList mode the user is allowed exactly when some entry is the
    [Username] itself, or the [Username] is a valid e-mail address whose
    comparison is case-folded (all addresses are, or its domain is one of
    [CaseInsensitiveEmailDomains]) and it equals the entry once both sides
    are lowered; when the comparison is not case-folded only the very
    string is accepted. *)
Theorem verifyUser_whitelist_comparison (c : cfg.Config) (u : User.t) :
  activeMode c = UserWhitelist ->
  (allowed (verifyUser lower managed c brand u) = true <->
   exists wl, In wl (cfg.WhiteList c)
     /\ (User.Username u = wl
         \/ (caseFolded lower c (User.Username u)
             /\ ToLower lower (User.Username u) = ToLower lower wl)))
  /\ (~ caseFolded lower c (User.Username u) ->
      (allowed (verifyUser lower managed c brand u) = true <->
       In (User.Username u) (cfg.WhiteList c))).
Proof.
  intros M.
  assert (A : allowed (verifyUser lower managed c brand u) = true <->
              exists wl, In wl (cfg.WhiteList c)
                /\ (User.Username u = wl
                    \/ (caseFolded lower c (User.Username u)
                        /\ ToLower lower (User.Username u) = ToLower lower wl))).
  { rewrite verifyUser_allowed, M, existsb_exists.
    split; intros (wl & Hin & H); exists wl; (split; [assumption|]);
      apply (whiteListEntryMatches_spec c u wl); assumption. }
  split; [exact A|].
  intros N. rewrite A. split.
  - intros (wl & Hin & [->|[F _]]); [assumption | contradiction].
  - intros Hin. exists (User.Username u). auto.
Qed.

End VerifyUserFacts.

(** C1 (as stated) fails: with [AllowAllUsers] the user with the empty
    [Username] is allowed. *)
Lemma verifyUser_empty_username_allowed :
  User.Username User.zero = ""
  /\ allowed (verifyUser Sample.lower Sample.managed Sample.cfgAllowAll Sample.brand
                User.zero) = true.
Proof. split; reflexivity. Qed.

Lemma verifyUser_empty_username_witness :
  allowed (verifyUser Sample.lower Sample.managed Sample.cfgWhiteList Sample.brand
             User.zero) = false <->
  (activeMode Sample.cfgWhiteList = UserWhitelist
   /\ ~ In "" (cfg.WhiteList Sample.cfgWhiteList))
  \/ (activeMode Sample.cfgWhiteList = TeamWhitelist
      /\ teamListed Sample.cfgWhiteList User.zero = false)
  \/ (activeMode Sample.cfgWhiteList = ManagedDomains
      /\ Sample.managed (cfg.Domains Sample.cfgWhiteList) (User.Email User.zero) = false).
Proof.
  apply (verifyUser_empty_username Sample.lower Sample.managed Sample.brand
           Sample.cfgWhiteList User.zero).
  reflexivity.
Defined.

Lemma verifyUser_whitelist_comparison_witness :
  (allowed (verifyUser Sample.lower Sample.managed Sample.cfgFolded Sample.brand
              Sample.bobUpper) = true <->
   exists wl, In wl (cfg.WhiteList Sample.cfgFolded)
     /\ (User.Username Sample.bobUpper = wl
         \/ (caseFolded Sample.lower Sample.cfgFolded (User.Username Sample.bobUpper)
             /\ ToLower Sample.lower (User.Username Sample.bobUpper)
                = ToLower Sample.lower wl)))
  /\ (~ caseFolded Sample.lower Sample.cfgFolded (User.Username Sample.bobUpper) ->
      (allowed (verifyUser Sample.lower Sample.managed Sample.cfgFolded Sample.brand
                  Sample.bobUpper) = true <->
       In (User.Username Sample.bobUpper) (cfg.WhiteList Sample.cfgFolded))).
Proof.
  apply (verifyUser_whitelist_comparison Sample.lower Sample.managed Sample.brand
           Sample.cfgFolded Sample.bobUpper).
  reflexivity.
Defined.

(** Scenarios S4 and S5 of the specification. *)
Example scenario_S4 :
  allowed (verifyUser Sample.lower Sample.managed Sample.cfgWhiteList Sample.brand
             (User.mk "alice@example.com" "" "alice@example.com" [])) = false.
Proof. vm_compute. reflexivity. Qed.

Example scenario_S5 :
  allowed (verifyUser Sample.lower Sample.managed Sample.cfgFolded Sample.brand
             Sample.bobUpper) = true.
Proof. vm_compute. reflexivity. Qed.

Example scenario_S5_not_an_email :
  allowed (verifyUser Sample.lower Sample.managed
             (cfg.mkConfig false ["Bob"] [] [] true [] "VouchSession") Sample.brand
             (User.mk "bob" "" "" [])) = false.
Proof. vm_compute. reflexivity. Qed.

(** ** The handlers *)

Lemma Values_Get_absent (q : gmap string (list string)) key :
  q !! key = None -> Values.Get q key = "".
Proof. unfold Values.Get. intros ->. reflexivity. Qed.

Lemma Contains_suffix (a sub : string) : Contains (a +:+ sub) sub.
Proof.
  exists a, "". rewrite RegexpFacts.append_nil_r. reflexivity.
Qed.

Section CallbackFacts.

Variable Store : Type.
Variable parse : string -> gmap string (list string).

(** C8. When the query's [error] parameter (its first value, as [Get] reads
    it) is not empty, [/auth] answers 401 and the message ends with the
    IdP's [error_description]; otherwise, when [state] is absent or empty,
    it answers 400.  Either way that is the one response. *)
Theorem CallbackHandler_error_or_missing_state (r : Request) (st : Store) :
  let q := Query parse r in
  let tr := traceOf (CallbackHandler Store parse r st) in
  (Values.Get q "error" <> "" ->
     exists resp, responses tr = [resp] /\ status resp = 401
       /\ Contains (message resp) (Values.Get q "error")
       /\ Contains (message resp) (Values.Get q "error_description"))
  /\ (Values.Get q "error" = "" ->
      q !! "state" = None \/ Values.Get q "state" = "" ->
      exists resp, responses tr = [resp] /\ status resp = 400).
Proof.
  intros q tr. subst q tr. unfold CallbackHandler, Query. split.
  - intros E. apply String.eqb_neq in E. 
    unfold bind, logf, emit, respond, finish, traceOf. rewrite E. simpl.
    eexists. split; [reflexivity|]. split; [reflexivity|]. split.
    + simpl. eexists "/auth Error from IdP: ", _. reflexivity.
    + simpl. 
      change ("/auth Error from IdP: " +:+ ?a +:+ " - " +:+ ?b)
        with ("/auth Error from IdP: " +:+ a +:+ " - " +:+ b).
      rewrite <- !RegexpFacts.append_assoc. apply Contains_suffix.
  - intros E S.
    assert (S' : Values.Get (parse (RawQuery r)) "state" = "").
    { destruct S as [S|S]; [apply Values_Get_absent, S | exact S]. }
    unfold bind, logf, emit, respond, finish, traceOf. rewrite E, S'. simpl.
    eexists. split; reflexivity.
Qed.


End CallbackFacts.

Lemma CallbackHandler_error_witness :
  let r := mkRequest "error=access_denied&error_description=denied" [] in
  let q := Query Sample.parseQuery r in
  let tr := traceOf (CallbackHandler (gmap string Session.t) Sample.parseQuery r ∅) in
  (Values.Get q "error" <> "" ->
     exists resp, responses tr = [resp] /\ status resp = 401
       /\ Contains (message resp) (Values.Get q "error")
       /\ Contains (message resp) (Values.Get q "error_description"))
  /\ (Values.Get q "error" = "" ->
      q !! "state" = None \/ Values.Get q "state" = "" ->
      exists resp, responses tr = [resp] /\ status resp = 400).
Proof.
  exact (CallbackHandler_error_or_missing_state (gmap string Session.t) Sample.parseQuery
           (mkRequest "error=access_denied&error_description=denied" []) ∅).
Defined.

(** The claim's wording of C8 against the code: the query
    [error=&error=access_denied&state=S1] contains a non-empty [error]
    parameter, yet [Get] reads the empty first value and the handler
    redirects: the response is 302, not 401. *)
Lemma CallbackHandler_second_error_value_not_read :
  containsNonEmpty (Query Sample.parseQuery SampleMore.callbackTwoErrors) "error" = true
  /\ responses (traceOf (CallbackHandler (gmap string Session.t) Sample.parseQuery
                           SampleMore.callbackTwoErrors ∅))
     = [Redirect302 "/auth/S1/?error=&error=access_denied&state=S1"]
  /\ ~ (exists resp,
          In resp (responses (traceOf (CallbackHandler (gmap string Session.t)
                                         Sample.parseQuery
                                         SampleMore.callbackTwoErrors ∅)))
          /\ status resp = 401).
Proof.
  split; [vm_compute; reflexivity|]. split; [vm_compute; reflexivity|].
  intros (resp & Hin & Hs). vm_compute in Hin.
  destruct Hin as [<-|[]]. discriminate Hs.
Qed.


Example CallbackHandler_S1 :
  traceOf (CallbackHandler _ Sample.parseQuery Sample.callbackS1
             (Sample.storeS1 "https://app.example.com/x"))
  = [Log (Logf DebugLevel "/auth" []);
     Respond (Redirect302 "/auth/S1/?code=C1&state=S1")].
Proof. vm_compute. reflexivity. Qed.

Example CallbackHandler_idp_error :
  responses (traceOf (CallbackHandler (gmap string Session.t) Sample.parseQuery
     (mkRequest "error=access_denied&error_description=denied" []) ∅))
  = [Error401 "/auth Error from IdP: access_denied - denied"].
Proof. vm_compute. reflexivity. Qed.

Example CallbackHandler_no_state :
  responses (traceOf (CallbackHandler (gmap string Session.t) Sample.parseQuery
     (mkRequest "code=C1" []) ∅))
  = [Error400 "/auth: could not find state in query code=C1"].
Proof. vm_compute. reflexivity. Qed.

Module TraceFacts.

Lemma calls_app (a b : list Event) : calls (a ++ b) = calls a ++ calls b.
Proof. unfold calls. apply filter_app. Qed.

Lemma calls_nil : calls [] = [].
Proof. reflexivity. Qed.

Lemma calls_cons (e : Event) (tr : list Event) :
  calls (e :: tr) = if isLog e then calls tr else e :: calls tr.
Proof.
  destruct e; reflexivity.
Qed.

Lemma calls_logs (l : list LogEntry) : calls (map Log l) = [].
Proof.
  induction l as [|x l IH]; [reflexivity|].
  simpl map. rewrite calls_cons. exact IH.
Qed.

Lemma cookiesSet_app (a b : list Event) :
  cookiesSet (a ++ b) = cookiesSet a ++ cookiesSet b.
Proof. induction a as [|[] a IH]; simpl; congruence. Qed.

Lemma cookiesSet_logs (l : list LogEntry) : cookiesSet (map Log l) = [].
Proof. induction l; [reflexivity | exact IHl]. Qed.

Lemma responses_app (a b : list Event) :
  responses (a ++ b) = responses a ++ responses b.
Proof. induction a as [|[] a IH]; simpl; congruence. Qed.

Lemma responses_logs (l : list LogEntry) : responses (map Log l) = [].
Proof. induction l; [reflexivity | exact IHl]. Qed.

Lemma failureStatus_logs (l : list LogEntry) e code :
  In e (map Log l) -> failureStatus e = Some code -> False.
Proof. intros H. apply in_map_iff in H as (x & <- & _). discriminate. Qed.

End TraceFacts.

Ltac trace_simpl :=
  repeat (rewrite ?TraceFacts.calls_app, ?TraceFacts.calls_logs,
            ?TraceFacts.calls_cons, ?TraceFacts.calls_nil,
            ?TraceFacts.cookiesSet_app, ?TraceFacts.cookiesSet_logs,
            ?TraceFacts.responses_app, ?TraceFacts.responses_logs;
          cbn [isLog cookiesSet responses app]).

Ltac no_failed_step H :=
  repeat (rewrite in_app_iff in H; simpl In in H);
  repeat match type of H with
         | _ \/ _ => destruct H as [H|H]
         | False => contradiction
         | In _ (map Log _) => exfalso; eapply TraceFacts.failureStatus_logs; eassumption
         | _ = _ => subst; try discriminate
         end.

Ltac run :=
  cbv beta iota zeta delta
    [bind logf emit respond finish sessstoreGet getUserInfo callVerifyUser newVPJWT
     sessionSave assertOrPanic ret traceOf storeOf fst snd];
  simpl.

Ltac no_session_save H :=
  repeat (rewrite in_app_iff in H; simpl In in H);
  repeat match type of H with
         | _ \/ _ => destruct H as [H|H]
         | False => contradiction
         | In _ (map Log _) => apply in_map_iff in H as (? & H & _)
         | SessionSave _ _ = SessionSave _ _ => injection H as <- <-
         | _ = _ => discriminate H
         end.

Ltac failed_branch :=
  trace_simpl;
  split; [intros ? []|];
  (split;
   [ let H := fresh "H" in let F := fresh "F" in
     intros ? ? H F; no_failed_step H; try discriminate F;
     (split; [reflexivity|]); eexists; (split; [reflexivity|]);
     simpl in F; injection F as <-; reflexivity
   | intros ? ? ?; try congruence;
     (split; [reflexivity|]); eexists; split; reflexivity ]).

Ltac success_branch :=
  trace_simpl;
  split;
  [ let H := fresh "H" in
    intros ? H; destruct H as [<-|[]];
    eexists _, _, _; cbv zeta;
    (split; [reflexivity|]); (split; [eassumption|]); (split; [eassumption|]);
    (split; [eassumption|]); (split; [eassumption|]);
    (split; [trace_simpl; reflexivity | reflexivity])
  | split;
    [ let H := fresh "H" in let F := fresh "F" in
      intros ? ? H F; no_failed_step H; discriminate F
    | intros ? ? ?; congruence ] ].

(** From the call of the provider on: the same steps whatever the
    auth-code options are.  [failed] closes a branch that stops before the
    cookie, [done] one that has set it. *)
Ltac flow_after_exchange failed done :=
  match goal with
  | |- context [rerr (?p ?r ?u ?cl ?pt ?opts)] =>
      destruct (rerr (p r u cl pt opts)) eqn:R; run; [failed|]
  end;
  match goal with
  | |- context [allowed ?v] => destruct (allowed v) eqn:V; run; [|failed]
  end;
  match goal with
  | |- context [?m (outUser ?res) (outClaims ?res) (outTokens ?res)] =>
      destruct (m (outUser res) (outClaims res) (outTokens res)) as [tok [e|]] eqn:M;
      run; [failed|]
  end;
  match goal with
  | |- context [assertString ?v] =>
      destruct (assertString v) eqn:A; run; [|done]
  end;
  match goal with
  | |- context [negb (?url =? "")] =>
      destruct (negb (url =? "")) eqn:U; run; [|done]
  end;
  match goal with
  | |- context [?save ?st ?r ?s] =>
      match type of (save st r s) with
      | (_ * option error)%type =>
          destruct (save st r s) as [st' [e|]] eqn:SV; run; done
      end
  end.

(** The whole handler, step by step. *)
Ltac auth_flow failed done :=
  unfold AuthStateHandler, Query; run;
  match goal with
  | |- context [?get ?st ?r (cfg.SessionName ?c)] =>
      destruct (get st r (cfg.SessionName c)) as [session [e|]] eqn:G; run; [failed|]
  end;
  match goal with
  | |- context [ifaceEqString ?v ?q] =>
      destruct (ifaceEqString v q) eqn:S; run; [|failed]
  end;
  match goal with
  | |- context [negb (cfg.CodeChallengeMethod ?o =? "")] =>
      destruct (negb (cfg.CodeChallengeMethod o =? "")); run;
      [ match goal with
        | |- context [assertString (Session.Values ?s !! "codeChallenge")] =>
            destruct (assertString (Session.Values s !! "codeChallenge")); run;
            [|failed];
            destruct (assertString (Session.Values s !! "codeVerifier")); run;
            [|failed]
        end;
        flow_after_exchange failed done
      | flow_after_exchange failed done ]
  end.

Section AuthStateFacts.

Variable lower : string -> string.
Variable managed : list string -> string -> bool.
Variable c : cfg.Config.
Variable oauth : cfg.OAuth.
Variable brand : cfg.Brand.
Variable Store : Type.
Variable sessGet : Store -> Request -> string -> Session.t * option error.
Variable sessSave : Store -> Request -> Session.t -> Store * option error.
Variable provider :
  Request -> User.t -> CustomClaims.t -> PTokens.t -> list AuthCodeOption -> ProviderResult.
Variable mint : User.t -> CustomClaims.t -> PTokens.t -> string * option error.
Variable parse : string -> gmap string (list string).

Let authState : Request -> Handler Store unit :=
  AuthStateHandler lower managed c oauth brand Store sessGet sessSave provider mint parse.

(** C5. In [/auth/{state}/] a cookie is set only after the session was
    found, the state matched, the provider returned no error, [verifyUser]
    allowed the user and the token was minted, the calls in that order; when
    one of these steps fails the handler answers 400 (session, state,
    provider), 403 (authorization) or 500 (token) and sets no cookie. *)
Theorem AuthStateHandler_cookie_after_all_steps (r : Request) (st : Store) :
  let tr := traceOf (authState r st) in
  let queryState := Values.Get (Query parse r) "state" in
  (forall tok, In tok (cookiesSet tr) ->
     exists session opts rest,
       let res := provider r User.zero CustomClaims.zero PTokens.zero opts in
       sessGet st r (cfg.SessionName c) = (session, None)
       /\ ifaceEqString (Session.Values session !! "state") queryState = true
       /\ rerr res = None
       /\ allowed (verifyUser lower managed c brand (outUser res)) = true
       /\ mint (outUser res) (outClaims res) (outTokens res) = (tok, None)
       /\ calls tr = SessionGet (cfg.SessionName c) None :: GetUserInfo None
                     :: VerifyUser (outUser res) true :: NewVPJWT tok None
                     :: SetCookie tok :: rest
       /\ cookiesSet rest = [])
  /\ (forall e code, In e tr -> failureStatus e = Some code ->
        cookiesSet tr = []
        /\ exists resp, responses tr = [resp] /\ status resp = code)
  /\ (forall session,
        sessGet st r (cfg.SessionName c) = (session, None) ->
        ifaceEqString (Session.Values session !! "state") queryState = false ->
        cookiesSet tr = []
        /\ exists resp, responses tr = [resp] /\ status resp = 400).
Proof.
  intros tr queryState. subst tr queryState. unfold authState.
  auth_flow failed_branch success_branch.
Qed.

(** X14. Whenever the handler saves a session, it is the expired one: the
    saved session has [MaxAge] -1, and the store the handler leaves is the
    one [session.Save] returns. *)
Lemma AuthStateHandler_saves_expired_session (r : Request) (st : Store) s err :
  In (SessionSave s err) (traceOf (authState r st)) ->
  Session.MaxAge s = (-1)%Z /\ storeOf (authState r st) = fst (sessSave st r s).
Proof.
  unfold authState.
  auth_flow
    ltac:(intros H; no_session_save H)
    ltac:(intros H; no_session_save H; try (rewrite SV; split; reflexivity)).
Qed.

(** With an empty [requestedURL] the session is neither expired nor saved:
    the store is left as it was, also after the cookie has been set. *)
Lemma AuthStateHandler_keeps_session (r : Request) (st : Store) (held : Session.t) :
  sessGet st r (cfg.SessionName c) = (held, None) ->
  assertString (Session.Values held !! "requestedURL") = Some "" ->
  storeOf (authState r st) = st.
Proof.
  intros G0 A0. unfold authState.
  auth_flow
    ltac:(reflexivity)
    ltac:(first [ reflexivity
                | exfalso; inversion G0; subst;
                  match goal with
                  | A : assertString _ = Some ?s, U : negb (?s =? "") = true |- _ =>
                      rewrite A0 in A; injection A as <-; discriminate U
                  end ]).
Qed.

End AuthStateFacts.

(** ** The ADFS adapter *)

Section AdapterFacts.

Variable oauth : cfg.OAuth.
Variable parse : string -> gmap string (list string).
Variable encode : gmap string (list string) -> string.
Variable newRequest : string -> string -> string -> adfs.HttpRequest + error.
Variable clientDo : adfs.HttpRequest -> adfs.HttpResponse + error.
Variable unmarshalTokenRes : string -> adfs.adfsTokenRes + error.
Variable decodeString : string -> string + error.
Variable unmarshalADFSUser : string -> ADFSUser.t.
Variable mapClaims : string -> CustomClaims.t -> CustomClaims.t * option error.
Variable prepare : ADFSUser.t -> ADFSUser.t.

Let getUserInfoFromADFS :=
  adfs.GetUserInfoFromADFS oauth parse encode newRequest clientDo unmarshalTokenRes
    decodeString unmarshalADFSUser mapClaims prepare.

Let request := adfs.tokenRequest oauth parse encode newRequest.

Lemma len_0 s : Nat.eqb (GoString.len s) 0 = true <-> s = "".
Proof. destruct s; simpl; split; congruence. Qed.

Lemma outUser_deferClose userinfo res :
  outUser (adfs.deferClose userinfo res) = outUser res.
Proof. unfold adfs.deferClose. destruct (adfs.closeErr userinfo); reflexivity. Qed.

Lemma rerr_deferClose userinfo res :
  adfs.closeErr userinfo = None -> rerr (adfs.deferClose userinfo res) = rerr res.
Proof. unfold adfs.deferClose. intros ->. reflexivity. Qed.

(** C7. Once the id_token is decoded (and [PrepareUserData] has run, the
    line before the rule): when the record's [Email] is empty and its [UPN]
    matches the e-mail pattern, the user's [Email] is the [UPN]; when the
    [Email] is not empty, or the [UPN] does not match, the user's [Email] is
    the record's [Email].  The pattern is anchored: it matches a string only
    as a whole. *)
Theorem GetUserInfoFromADFS_email_from_UPN
    (r : Request) (user : User.t) (claims : CustomClaims.t) (ptokens : PTokens.t)
    (req : adfs.HttpRequest) (userinfo : adfs.HttpResponse)
    (tokenRes : adfs.adfsTokenRes) (idToken : string) :
  request r = inl req ->
  clientDo req = inl userinfo ->
  unmarshalTokenRes (adfs.bodyData userinfo) = inl tokenRes ->
  2 <= length (GoString.Split (adfs.IDToken tokenRes) ".") ->
  decodeString (nth 1 (GoString.Split (adfs.IDToken tokenRes) ".") "") = inl idToken ->
  snd (mapClaims idToken claims) = None ->
  let record := prepare (unmarshalADFSUser idToken) in
  let out := outUser (getUserInfoFromADFS r user claims ptokens) in
  (ADFSUser.Email record = "" ->
   MatchString adfs.rxEmail (ADFSUser.UPN record) = true ->
   User.Email out = ADFSUser.UPN record)
  /\ (ADFSUser.Email record <> "" \/ MatchString adfs.rxEmail (ADFSUser.UPN record) = false ->
      User.Email out = ADFSUser.Email record)
  /\ (forall s, MatchString adfs.rxEmail s = true <-> lang emailBody s).
Proof.
  intros Hreq Hdo Hjson Hlen Hb64 Hmap record out.
  assert (E : User.Email out
              = if Nat.eqb (GoString.len (ADFSUser.Email record)) 0
                then if MatchString adfs.rxEmail (ADFSUser.UPN record)
                     then ADFSUser.UPN record else ADFSUser.Email record
                else ADFSUser.Email record).
  { subst out record. unfold getUserInfoFromADFS, adfs.GetUserInfoFromADFS.
    fold request. rewrite Hreq, Hdo, outUser_deferClose. cbv zeta.
    rewrite Hjson.
    apply Nat.ltb_ge in Hlen. rewrite Hlen, Hb64, Hmap.
    destruct (Nat.eqb _ 0); [destruct (MatchString _ _)|]; reflexivity. }
  split; [|split].
  - intros He Hm. rewrite E, Hm. apply len_0 in He. rewrite He. reflexivity.
  - intros [He|Hm].
    + rewrite E. destruct (Nat.eqb _ 0) eqn:N; [|reflexivity].
      apply len_0 in N. contradiction.
    + rewrite E, Hm. destruct (Nat.eqb _ 0); reflexivity.
  - intros s. apply RegexpFacts.MatchString_anchored.
Qed.

(** X16. When the body of the token response is not JSON, or its id_token
    has fewer than two segments or a payload that is not base64, the adapter
    logs the failure and returns no error; the user is left as it was. *)
Lemma GetUserInfoFromADFS_malformed_response
    (r : Request) (user : User.t) (claims : CustomClaims.t) (ptokens : PTokens.t)
    (req : adfs.HttpRequest) (userinfo : adfs.HttpResponse) :
  request r = inl req ->
  clientDo req = inl userinfo ->
  adfs.closeErr userinfo = None ->
  (exists err, unmarshalTokenRes (adfs.bodyData userinfo) = inr err)
  \/ (exists tokenRes, unmarshalTokenRes (adfs.bodyData userinfo) = inl tokenRes
        /\ (length (GoString.Split (adfs.IDToken tokenRes) ".") < 2
            \/ exists err,
                 decodeString (nth 1 (GoString.Split (adfs.IDToken tokenRes) ".") "")
                 = inr err)) ->
  rerr (getUserInfoFromADFS r user claims ptokens) = None
  /\ outUser (getUserInfoFromADFS r user claims ptokens) = user.
Proof.
  intros Hreq Hdo Hclose H.
  unfold getUserInfoFromADFS, adfs.GetUserInfoFromADFS. fold request.
  rewrite Hreq, Hdo, outUser_deferClose, (rerr_deferClose _ _ Hclose). cbv zeta.
  destruct H as [[err ->]|(tokenRes & -> & [Hlen|[err Hb64]])].
  - split; reflexivity.
  - apply Nat.ltb_lt in Hlen. rewrite Hlen. split; reflexivity.
  - destruct (Nat.ltb _ 2); [split; reflexivity|]. rewrite Hb64. split; reflexivity.
Qed.

End AdapterFacts.

Lemma GetUserInfoFromADFS_email_from_UPN_witness :
  let record := Sample.prepare (Sample.unmarshalADFSUser "payload") in
  let out :=
    outUser (adfs.GetUserInfoFromADFS Sample.oauth Sample.parseQuery Sample.encode
               Sample.newRequest (Sample.clientDo "{token response}")
               Sample.unmarshalTokenRes Sample.decodeString Sample.unmarshalADFSUser
               Sample.mapClaims Sample.prepare
               Sample.callbackS1 User.zero CustomClaims.zero PTokens.zero) in
  (ADFSUser.Email record = "" ->
   MatchString adfs.rxEmail (ADFSUser.UPN record) = true ->
   User.Email out = ADFSUser.UPN record)
  /\ (ADFSUser.Email record <> "" \/ MatchString adfs.rxEmail (ADFSUser.UPN record) = false ->
      User.Email out = ADFSUser.Email record)
  /\ (forall s, MatchString adfs.rxEmail s = true <-> lang emailBody s).
Proof.
  refine (GetUserInfoFromADFS_email_from_UPN Sample.oauth Sample.parseQuery Sample.encode
           Sample.newRequest (Sample.clientDo "{token response}")
           Sample.unmarshalTokenRes Sample.decodeString Sample.unmarshalADFSUser
           Sample.mapClaims Sample.prepare
           Sample.callbackS1 User.zero CustomClaims.zero PTokens.zero
           _ (adfs.mkHttpResponse "{token response}" None)
           (adfs.mkTokenRes "access" "bearer" "header.payload.signature" 3600)
           "payload" _ _ _ _ _ _).
  - reflexivity.
  - reflexivity.
  - reflexivity.
  - vm_compute. lia.
  - reflexivity.
  - reflexivity.
Defined.

(** Scenario S6 of the specification. *)
Example adfs_scenario_S6 :
  let res := Sample.adfsProvider "{token response}" Sample.callbackS1
               User.zero CustomClaims.zero PTokens.zero [] in
  rerr res = None
  /\ User.Email (outUser res) = "carol@corp.local"
  /\ allowed (verifyUser Sample.lower Sample.managed Sample.cfgCorp Sample.brand
                (outUser res)) = true.
Proof. vm_compute. repeat split; reflexivity. Qed.

(** ** The flow on the scenarios of the specification *)

(** Scenario S1: the fresh login ends with the cookie and the redirect, and
    the session is gone from the store. *)
Example scenario_S1 :
  let out := Sample.authState Sample.cfgDomains Sample.provider Sample.callbackS1
               (Sample.storeS1 "https://app.example.com/x") in
  cookiesSet (traceOf out) = ["jwt.alice"]
  /\ responses (traceOf out) = [Redirect302 "https://app.example.com/x"]
  /\ storeOf out = ∅.
Proof. vm_compute. repeat split; reflexivity. Qed.

(** Scenario S2: the callback repeated after S1 finds no state: 400. *)
Example scenario_S2 :
  let first := Sample.authState Sample.cfgDomains Sample.provider Sample.callbackS1
                 (Sample.storeS1 "https://app.example.com/x") in
  let second := Sample.authState Sample.cfgDomains Sample.provider Sample.callbackS1
                  (storeOf first) in
  map status (responses (traceOf second)) = [400]
  /\ cookiesSet (traceOf second) = [].
Proof. vm_compute. split; reflexivity. Qed.

(** Scenario S4: the whitelist miss ends with 403 and no cookie. *)
Example scenario_S4_flow :
  let out := Sample.authState Sample.cfgWhiteList Sample.provider Sample.callbackS1
               (Sample.storeS1 "https://app.example.com/x") in
  map status (responses (traceOf out)) = [403] /\ cookiesSet (traceOf out) = [].
Proof. vm_compute. split; reflexivity. Qed.

(** C3: the code at the failing input.  The token endpoint answers with a
    body that is not JSON, or with an id_token that is not a JWS: the
    adapter returns no error and leaves the user empty, and [/auth/{state}/]
    goes on with that user: under [AllowAllUsers] it mints a token for the
    empty username, sets the cookie and redirects; no 400 is sent. *)
Theorem auth_flow_goes_on_after_malformed_token_response :
  let flow body :=
    let res := Sample.adfsProvider body Sample.callbackS1
                 User.zero CustomClaims.zero PTokens.zero [] in
    let out := Sample.authState Sample.cfgAllowAll (Sample.adfsProvider body)
                 Sample.callbackS1 (Sample.storeS1 "https://app.example.com/x") in
    (rerr res, outUser res, responses (traceOf out), cookiesSet (traceOf out)) in
  flow "<html>502 Bad Gateway</html>"
    = (None, User.zero, [Redirect302 "https://app.example.com/x"], ["jwt."])
  /\ flow "{token response, id_token: not-a-jws}"
    = (None, User.zero, [Redirect302 "https://app.example.com/x"], ["jwt."]).
Proof. vm_compute. split; reflexivity. Qed.

(** C6: the code at the failing input.  The session holds the state [S1]
    and an empty [requestedURL]: the callback is accepted, the session
    stays in the store as it was, and the same callback is accepted a
    second time. *)
Theorem state_accepted_twice_with_empty_requestedURL :
  let first := Sample.authState Sample.cfgDomains Sample.provider Sample.callbackS1
                 (Sample.storeS1 "") in
  let second := Sample.authState Sample.cfgDomains Sample.provider Sample.callbackS1
                  (storeOf first) in
  cookiesSet (traceOf first) = ["jwt.alice"]
  /\ responses (traceOf first) = [RenderIndex "/auth jwt.alice"]
  /\ storeOf first = Sample.storeS1 ""
  /\ cookiesSet (traceOf second) = ["jwt.alice"]
  /\ responses (traceOf second) = [RenderIndex "/auth jwt.alice"].
Proof. vm_compute. repeat split; reflexivity. Qed.

(** ** [isEmailValid] *)

Module EmailLength.
Import RegexpFacts EmailFacts.

Lemma runeCountFrom_le skip s : GoString.runeCountFrom skip s <= String.length s.
Proof.
  revert skip. induction s as [|c s IH]; intros skip; simpl; [lia|].
  destruct skip; [specialize (IH (GoString.runeSize c s - 1)) | specialize (IH skip)]; lia.
Qed.

Lemma runeCountFrom_ascii s :
  GoString.isASCII s = true -> GoString.runeCountFrom 0 s = String.length s.
Proof.
  induction s as [|c s IH]; simpl; [reflexivity|].
  intros H. apply andb_prop in H as [Hc Hs].
  unfold GoString.runeSize. rewrite Hc. simpl. rewrite IH; auto.
Qed.

(** A string has at most as many characters as bytes, and as many when it is
    ASCII. *)
Lemma RuneCount_le_len s : GoString.RuneCountInString s <= GoString.len s.
Proof. apply runeCountFrom_le. Qed.

Lemma RuneCount_ascii s :
  GoString.isASCII s = true -> GoString.RuneCountInString s = GoString.len s.
Proof. apply runeCountFrom_ascii. Qed.

Lemma MatchString_emailRegex_ascii e :
  MatchString emailRegex e = true -> GoString.isASCII e = true.
Proof. intros H. apply lang_emailBody_ascii, MatchString_anchored, H. Qed.

End EmailLength.

(** C10. [isEmailValid] is false for every string shorter than 3 or longer
    than 254, whatever it holds, and within these bounds it is the answer of
    the anchored pattern.  This holds for the length in bytes, which the
    code takes, and for the length in characters as well: the pattern
    accepts ASCII strings only, where the two agree. *)
Theorem isEmailValid_length_then_pattern (e : string) :
  (GoString.len e < 3 \/ 254 < GoString.len e -> isEmailValid e = false)
  /\ (3 <= GoString.len e <= 254 -> isEmailValid e = MatchString emailRegex e)
  /\ (GoString.RuneCountInString e < 3 \/ 254 < GoString.RuneCountInString e ->
      isEmailValid e = false)
  /\ (3 <= GoString.RuneCountInString e <= 254 ->
      isEmailValid e = MatchString emailRegex e)
  /\ (forall s, MatchString emailRegex s = true <-> lang emailBody s).
Proof.
  pose proof (EmailLength.RuneCount_le_len e) as Hle.
  assert (B1 : GoString.len e < 3 \/ 254 < GoString.len e -> isEmailValid e = false).
  { unfold isEmailValid. intros [H|H].
    - apply Nat.ltb_lt in H. rewrite H. reflexivity.
    - apply Nat.ltb_lt in H. rewrite H, orb_true_r. reflexivity. }
  assert (B2 : 3 <= GoString.len e <= 254 -> isEmailValid e = MatchString emailRegex e).
  { unfold isEmailValid. intros [H1 H2].
    apply Nat.ltb_ge in H1, H2. rewrite H1, H2. reflexivity. }
  assert (A : MatchString emailRegex e = true ->
              GoString.RuneCountInString e = GoString.len e).
  { intros M. apply EmailLength.RuneCount_ascii, EmailLength.MatchString_emailRegex_ascii, M. }
  assert (V : isEmailValid e = true -> MatchString emailRegex e = true).
  { unfold isEmailValid. destruct (_ || _); [discriminate | auto]. }
  split; [exact B1|]. split; [exact B2|]. split; [|split].
  - intros H. apply not_true_is_false. intros E.
    pose proof (A (V E)) as Q.
    assert (F : isEmailValid e = false) by (apply B1; lia).
    congruence.
  - intros H. destruct (Bool.bool_dec (MatchString emailRegex e) true) as [M|M].
    + apply B2. rewrite <- (A M). exact H.
    + apply not_true_is_false in M. rewrite M.
      apply not_true_is_false. intros E. apply V in E. congruence.
  - intros s. apply RegexpFacts.MatchString_anchored.
Qed.

Example RuneCount_multibyte :
  GoString.len (String (ascii_of_nat 195) (String (ascii_of_nat 169) "@"))
  = 3
  /\ GoString.RuneCountInString (String (ascii_of_nat 195) (String (ascii_of_nat 169) "@"))
     = 2
  /\ isEmailValid (String (ascii_of_nat 195) (String (ascii_of_nat 169) "@")) = false.
Proof. vm_compute. repeat split; reflexivity. Qed.

(** ** More on [AuthStateHandler]: the ways it ends *)

Ltac in_trace H :=
  repeat (rewrite in_app_iff in H; simpl In in H);
  repeat match type of H with
         | _ \/ _ => destruct H as [H|H]
         | False => contradiction
         | In _ (map Log _) => apply in_map_iff in H as (? & H & _)
         | _ = _ => discriminate H
         end.

Ltac find_event :=
  repeat first [ left; reflexivity | right | apply in_or_app; right ].

Ltac outcome_goals :=
  trace_simpl;
  repeat match goal with
         | |- _ /\ _ => split
         | |- _ <-> _ => split
         end;
  first [ solve [simpl; lia]
        | solve [let H := fresh "H" in intros H; first [reflexivity | in_trace H]]
        | solve [let H := fresh "H" in intros H; discriminate H]
        | solve [intros _; find_event] ].


Section AuthStateEndings.

Variable lower : string -> string.
Variable managed : list string -> string -> bool.
Variable c : cfg.Config.
Variable oauth : cfg.OAuth.
Variable brand : cfg.Brand.
Variable Store : Type.
Variable sessGet : Store -> Request -> string -> Session.t * option error.
Variable sessSave : Store -> Request -> Session.t -> Store * option error.
Variable provider :
  Request -> User.t -> CustomClaims.t -> PTokens.t -> list AuthCodeOption -> ProviderResult.
Variable mint : User.t -> CustomClaims.t -> PTokens.t -> string * option error.
Variable parse : string -> gmap string (list string).

Local Arguments calls : simpl never.

Let authState : Request -> Handler Store unit :=
  AuthStateHandler lower managed c oauth brand Store sessGet sessSave provider mint parse.

Let mints := mintsToken lower managed c oauth brand Store sessGet provider mint parse.

(** Up to the call of the provider. *)
Ltac to_provider Hreach :=
  let G := fresh "G" in let S := fresh "S" in let O := fresh "O" in
  destruct Hreach as (G & S & O);
  unfold authState, AuthStateHandler; run;
  rewrite G; run; unfold Query in S; unfold Query; rewrite S; run;
  unfold sessionAuthCodeOptions in O;
  destruct (negb (cfg.CodeChallengeMethod oauth =? ""));
  [ match type of O with
    | context [assertString ?v] =>
        destruct (assertString v); [|discriminate O]
    end;
    match type of O with
    | context [assertString ?v] =>
        destruct (assertString v); [|discriminate O]
    end
  | ];
  injection O as <-; run; unfold AuthCodeOption in *.

(** Up to the cookie. *)
Ltac to_cookie Hmint :=
  let opts := fresh "opts" in let Hreach := fresh "Hreach" in
  let E := fresh "E" in let R := fresh "R" in let V := fresh "V" in
  let M := fresh "M" in
  destruct Hmint as (opts & Hreach & E & R & V & M);
  rewrite E in R, V, M |- *;
  to_provider Hreach;
  rewrite R; run; rewrite V; run; rewrite M; run.


(** X10. With a [CodeChallengeMethod] configured and a session that lacks
    the [codeChallenge] or the [codeVerifier] string, the type assertion
    panics before the provider is called: no response is written, no cookie
    is set and the session store is left as it was. *)
Theorem AuthStateHandler_panics_without_pkce_values
    (r : Request) (st : Store) (session : Session.t) :
  sessGet st r (cfg.SessionName c) = (session, None) ->
  ifaceEqString (Session.Values session !! "state")
    (Values.Get (Query parse r) "state") = true ->
  sessionAuthCodeOptions oauth session = None ->
  calls (traceOf (authState r st)) = [SessionGet (cfg.SessionName c) None; Panic]
  /\ responses (traceOf (authState r st)) = []
  /\ cookiesSet (traceOf (authState r st)) = []
  /\ storeOf (authState r st) = st.
Proof.
  intros G S O. unfold authState, AuthStateHandler. run.
  rewrite G. run. unfold Query in *. rewrite S. run.
  unfold sessionAuthCodeOptions in O.
  destruct (negb (cfg.CodeChallengeMethod oauth =? "")); [|discriminate O].
  destruct (assertString (Session.Values session !! "codeChallenge")); run.
  - destruct (assertString (Session.Values session !! "codeVerifier")); run;
      [discriminate O|].
    trace_simpl. repeat split; reflexivity.
  - trace_simpl. repeat split; reflexivity.
Qed.

(** X11. When every step succeeds and the session holds a non-empty
    [requestedURL], the handler sets the cookie to the minted token, saves
    the session with the [requestedURL] entry emptied, the URL marked with 0
    and [MaxAge] -1, and redirects (302) to the URL; an error of
    [session.Save] is logged at error level between the save and the
    redirect, and changes nothing else.  The last conjunct is the whole
    trace, log lines included. *)
Theorem AuthStateHandler_redirects_and_expires_session
    (r : Request) (st : Store) (session : Session.t) (res : ProviderResult)
    (tok requestedURL : string) :
  mints r st session res tok ->
  assertString (Session.Values session !! "requestedURL") = Some requestedURL ->
  requestedURL <> "" ->
  let saved := clearedSession session requestedURL in
  let out := authState r st in
  responses (traceOf out) = [Redirect302 requestedURL]
  /\ cookiesSet (traceOf out) = [tok]
  /\ storeOf out = fst (sessSave st r saved)
  /\ calls (traceOf out)
     = [SessionGet (cfg.SessionName c) None; GetUserInfo None;
        VerifyUser (outUser res) true; NewVPJWT tok None; SetCookie tok;
        SessionSave saved (snd (sessSave st r saved)); Respond (Redirect302 requestedURL)]
  /\ traceOf out
     = [Log (Logf DebugLevel "/auth/{state}/" []);
        SessionGet (cfg.SessionName c) None]
       ++ map Log (outLog res)
       ++ [GetUserInfo None;
           Log (Logf DebugLevel "/auth/{state}/ Claims from userinfo: %+v"
                  [AClaims (outClaims res)])]
       ++ map Log (logged (verifyUser lower managed c brand (outUser res)))
       ++ [VerifyUser (outUser res) true; NewVPJWT tok None; SetCookie tok;
           SessionSave saved (snd (sessSave st r saved))]
       ++ match snd (sessSave st r saved) with
          | Some e => [Log (Logf ErrorLevel "%v" [AError e])]
          | None => []
          end
       ++ [Respond (Redirect302 requestedURL)].
Proof.
  intros Hm A U saved out. subst saved out. apply String.eqb_neq in U.
  to_cookie Hm.
  all: rewrite A; run; rewrite U; run; unfold clearedSession;
    destruct (sessSave st r _) as [st' [e|]]; run;
    (split; [|split; [|split; [|split]]];
     [ trace_simpl; reflexivity | trace_simpl; reflexivity | reflexivity
     | trace_simpl; reflexivity
     | cbn [fst snd]; rewrite <- ?app_assoc; reflexivity ]).
Qed.

(** X12. When every step succeeds and the session's [requestedURL] is the
    empty string, the handler sets the cookie and renders the index page
    with the token string in its message; it does not save the session and
    leaves the store as it was. *)
Theorem AuthStateHandler_renders_token_without_requestedURL
    (r : Request) (st : Store) (session : Session.t) (res : ProviderResult)
    (tok : string) :
  mints r st session res tok ->
  assertString (Session.Values session !! "requestedURL") = Some "" ->
  let out := authState r st in
  responses (traceOf out) = [RenderIndex ("/auth " +:+ tok)]
  /\ cookiesSet (traceOf out) = [tok]
  /\ storeOf out = st
  /\ calls (traceOf out)
     = [SessionGet (cfg.SessionName c) None; GetUserInfo None;
        VerifyUser (outUser res) true; NewVPJWT tok None; SetCookie tok;
        Respond (RenderIndex ("/auth " +:+ tok))].
Proof.
  intros Hm A out. subst out.
  to_cookie Hm.
  all: rewrite A; run; trace_simpl; repeat split; reflexivity.
Qed.

(** X13. When every step succeeds and the session holds no [requestedURL]
    string, the handler has already set the cookie when the type assertion
    panics: the cookie is set, no response is written and the session is
    not saved. *)
Theorem AuthStateHandler_panics_after_cookie_without_requestedURL
    (r : Request) (st : Store) (session : Session.t) (res : ProviderResult)
    (tok : string) :
  mints r st session res tok ->
  assertString (Session.Values session !! "requestedURL") = None ->
  let out := authState r st in
  responses (traceOf out) = []
  /\ cookiesSet (traceOf out) = [tok]
  /\ storeOf out = st
  /\ calls (traceOf out)
     = [SessionGet (cfg.SessionName c) None; GetUserInfo None;
        VerifyUser (outUser res) true; NewVPJWT tok None; SetCookie tok; Panic].
Proof.
  intros Hm A out. subst out.
  to_cookie Hm.
  all: rewrite A; run; trace_simpl; repeat split; reflexivity.
Qed.

(** X8. Every run of the handler writes at most one response and sets at
    most one cookie, and it ends without a response exactly when it
    panics. *)
Theorem AuthStateHandler_one_outcome (r : Request) (st : Store) :
  let tr := traceOf (authState r st) in
  length (responses tr) <= 1
  /\ length (cookiesSet tr) <= 1
  /\ (In Panic tr <-> responses tr = []).
Proof.
  intros tr. subst tr. unfold authState.
  auth_flow ltac:(outcome_goals) ltac:(outcome_goals).
Qed.

(** ** [/auth] and [/auth/{state}/] together *)


End AuthStateEndings.

(** ** More on [CallbackHandler] and [verifyUser] *)

(** X7. Whatever the request, [/auth] logs one line and answers once, with 401,
    400 or 302; it sets no cookie, does not call the provider and leaves the
    session store as it was. *)
Theorem CallbackHandler_answers_once
    (Store : Type) (parse : string -> gmap string (list string))
    (r : Request) (st : Store) :
  exists resp,
    traceOf (CallbackHandler Store parse r st)
      = [Log (Logf DebugLevel "/auth" []); Respond resp]
    /\ (status resp = 401 \/ status resp = 400 \/ status resp = 302)
    /\ storeOf (CallbackHandler Store parse r st) = st.
Proof.
  unfold CallbackHandler, Query.
  unfold bind, logf, emit, respond, finish, traceOf, storeOf.
  destruct (negb (Values.Get (parse (RawQuery r)) "error" =? "")); simpl.
  - eexists. split; [reflexivity|]. split; [left; reflexivity | reflexivity].
  - destruct (Values.Get (parse (RawQuery r)) "state" =? ""); simpl.
    + eexists. split; [reflexivity|]. split; [right; left; reflexivity | reflexivity].
    + eexists. split; [reflexivity|]. split; [right; right; reflexivity | reflexivity].
Qed.

Ltac verdict_facts :=
  cbv zeta; cbn [allowed reason logged length];
  split; [|split; [|split]];
  [ split; [ first [discriminate | eauto] | first [intros [? ?]; discriminate | reflexivity] ]
  | split; first [discriminate | reflexivity]
  | reflexivity
  | let H := fresh "H" in
    intros ? H; first [destruct H as [<-|[]]; reflexivity | destruct H] ].

Section VerifyUserMore.

Variable lower : string -> string.
Variable managed : list string -> string -> bool.
Variable brand : cfg.Brand.

(** X4. [verifyUser] returns an error exactly when it denies; when it allows it
    logs one line (a warning when nothing is configured, a debug line
    otherwise), when it denies it logs nothing. *)
Theorem verifyUser_error_iff_denied (c : cfg.Config) (u : User.t) :
  let v := verifyUser lower managed c brand u in
  (allowed v = false <-> exists msg, reason v = Some msg)
  /\ (allowed v = true <-> reason v = None)
  /\ length (logged v) = (if allowed v then 1 else 0)
  /\ (forall entry, In entry (logged v) ->
        level entry = if activeMode c is NothingConfigured then WarnLevel else DebugLevel).
Proof.
  unfold verifyUser, activeMode.
  destruct (cfg.AllowAllUsers c); [verdict_facts|].
  destruct (cfg.WhiteList c) as [|w ws]; cbn [length Nat.eqb negb];
    [|destruct (existsb _ _); verdict_facts].
  destruct (cfg.TeamWhiteList c) as [|t ts]; cbn [length Nat.eqb negb];
    [|destruct (firstTeamMatch _ _); verdict_facts].
  destruct (cfg.Domains c) as [|d ds]; cbn [length Nat.eqb negb];
    [|destruct (managed _ _); verdict_facts].
  verdict_facts.
Qed.

(** X5. The decision reads one field of the user only: the [Username] under the
    whitelist, the [TeamMemberships] under the team whitelist, the [Email]
    under the managed domains, and nothing with [AllowAllUsers] or with
    nothing configured. *)
Theorem verifyUser_reads_one_field (c : cfg.Config) (u u' : User.t) :
  match activeMode c with
  | AllowAll | NothingConfigured => True
  | UserWhitelist => User.Username u = User.Username u'
  | TeamWhitelist => User.TeamMemberships u = User.TeamMemberships u'
  | ManagedDomains => User.Email u = User.Email u'
  end ->
  allowed (verifyUser lower managed c brand u)
  = allowed (verifyUser lower managed c brand u').
Proof.
  rewrite !verifyUser_allowed.
  destruct (activeMode c); intros H; try reflexivity.
  - unfold isUsernameCaseInsensitive, whiteListEntryMatches. rewrite H. reflexivity.
  - unfold teamListed. rewrite H. reflexivity.
  - rewrite H. reflexivity.
Qed.

End VerifyUserMore.

(** ** More on [isEmailValid]: what a valid address looks like *)

Module EmailMore.
Import RegexpFacts EmailFacts.

Lemma classFolds_spec rs ch :
  classFolds rs = true -> inClass (GoString.lowerByte ch) rs = inClass ch rs.
Proof.
  unfold classFolds. intros H.
  pose proof (forall_ascii _ H ch) as E. simpl in E.
  apply Bool.eqb_prop in E. exact E.
Qed.

Lemma deriv_lowerByte r ch :
  foldsCase r = true -> deriv (GoString.lowerByte ch) r = deriv ch r.
Proof.
  induction r; simpl; intros F; try reflexivity.
  - rewrite (classFolds_spec _ _ F). reflexivity.
  - apply andb_prop in F as [F1 F2]. rewrite IHr1, IHr2 by assumption. reflexivity.
  - apply andb_prop in F as [F1 F2]. rewrite IHr1, IHr2 by assumption. reflexivity.
  - rewrite IHr by assumption. reflexivity.
Qed.

Lemma foldsCase_deriv r ch : foldsCase r = true -> foldsCase (deriv ch r) = true.
Proof.
  induction r; simpl; intros F; try reflexivity.
  - destruct (inClass ch ranges); reflexivity.
  - apply andb_prop in F as [F1 F2].
    destruct (nullable r1); simpl; rewrite ?IHr1, ?IHr2, ?F2 by assumption; reflexivity.
  - apply andb_prop in F as [F1 F2]. rewrite IHr1, IHr2 by assumption. reflexivity.
  - rewrite IHr, F by assumption. reflexivity.
Qed.

Lemma fullMatch_asciiLower s :
  forall r, foldsCase r = true -> fullMatch r (GoString.asciiLower s) = fullMatch r s.
Proof.
  induction s as [|ch s IH]; intros r F; simpl; [reflexivity|].
  rewrite (deriv_lowerByte _ _ F). apply IH, foldsCase_deriv, F.
Qed.

Lemma len_asciiLower s : GoString.len (GoString.asciiLower s) = GoString.len s.
Proof. unfold GoString.len. induction s; simpl; congruence. Qed.

Lemma foldsCase_emailRegex :
  foldsCase (Cat Eps (Cat emailBody Eps)) = true.
Proof. vm_compute. reflexivity. Qed.

Lemma isEmailValid_lowered e : isEmailValid (GoString.asciiLower e) = isEmailValid e.
Proof.
  unfold isEmailValid. rewrite len_asciiLower.
  destruct (_ || _); [reflexivity|].
  unfold MatchString. simpl.
  apply fullMatch_asciiLower, foldsCase_emailRegex.
Qed.

End EmailMore.

(** X3. Validity does not depend on the case of the letters: an address and its
    lower-case form are both valid or both invalid, and so are two strings
    that differ in the case of ASCII letters only. *)
Theorem isEmailValid_ignores_case (e e' : string) :
  isEmailValid (GoString.asciiLower e) = isEmailValid e
  /\ (GoString.asciiLower e' = GoString.asciiLower e ->
      isEmailValid e' = isEmailValid e).
Proof.
  split; [apply EmailMore.isEmailValid_lowered|].
  intros H. rewrite <- (EmailMore.isEmailValid_lowered e'), H.
  apply EmailMore.isEmailValid_lowered.
Qed.

Module HostLabels.
Import RegexpFacts EmailFacts.

Lemma count_app ch (s1 s2 : string) :
  GoString.count ch (s1 ++ s2) = GoString.count ch s1 + GoString.count ch s2.
Proof. induction s1; str_simpl; [reflexivity | rewrite IHs1; lia]. Qed.

Lemma count_noAt s : allBytes noAt s = true -> GoString.count "@" s = 0.
Proof.
  induction s as [|ch s IH]; simpl; [reflexivity|].
  intros H. apply andb_prop in H as [H1 H2]. unfold noAt in H1.
  destruct (Ascii.eqb ch "@"); [discriminate | simpl; auto].
Qed.

Lemma length_append (s1 s2 : string) :
  String.length (s1 ++ s2) = String.length s1 + String.length s2.
Proof. induction s1; str_simpl; [reflexivity | rewrite IHs1; reflexivity]. Qed.

Lemma lastByte_app (s : string) ch d : lastByte (s ++ String ch "") d = ch.
Proof. revert d. induction s; intros d; str_simpl; auto. Qed.

Lemma lang_Class_inv rs s :
  lang (Class rs) s -> exists ch, s = String ch "" /\ inClass ch rs = true.
Proof. intros H. inversion H; subst. eauto. Qed.

Lemma lang_UpTo_class n rs : forall s,
  lang (UpTo n (Class rs)) s ->
  String.length s <= n /\ allBytes (fun b => inClass b rs) s = true.
Proof.
  induction n as [|n IH]; intros s H; simpl in H.
  - inversion H; subst. split; [simpl; lia | reflexivity].
  - unfold Opt in H. inversion H as [| | | r1 r2 s' Hc | r1 r2 s' He | |]; subst.
    + inversion Hc as [| |r1 r2 s1 s2 H1 H2| | | |]; subst.
      apply lang_Class_inv in H1 as (ch & -> & Hin).
      apply IH in H2 as [Hl Hb]. str_simpl. rewrite Hin, Hb. split; [lia | reflexivity].
    + inversion He; subst. split; [simpl; lia | reflexivity].
Qed.

Lemma alnum_alnumDash ch : inClass ch alnum = true -> inClass ch alnumDash = true.
Proof. revert ch. by_bytes. Qed.

Lemma alnumDash_noDot ch : inClass ch alnumDash = true -> noDot ch = true.
Proof. revert ch. by_bytes. Qed.

(** A word of the label expression is a host label. *)
Lemma lang_labelRe label : lang labelRe label -> isHostLabel label = true.
Proof.
  unfold labelRe, Opt. intros H.
  inversion H as [| |r1 r2 s1 s2 H1 H2| | | |]; subst; clear H.
  apply lang_Class_inv in H1 as (c0 & -> & A0).
  inversion H2 as [| | | r1 r2 s' Hc | r1 r2 s' He | |]; subst; clear H2.
  - inversion Hc as [| |r1 r2 mid s3 Hm H3| | | |]; subst; clear Hc.
    apply lang_Class_inv in H3 as (cl & -> & Al).
    apply (lang_UpTo_class 61 alnumDash) in Hm as [Hlen Hb].
    rewrite append_cons, append_nil_l. unfold isHostLabel.
    rewrite lastByte_app, A0, Al. cbn [String.length allBytes andb].
    rewrite length_append, allBytes_app, Hb, (alnum_alnumDash _ A0).
    cbn [String.length allBytes andb]. rewrite (alnum_alnumDash _ Al).
    rewrite !andb_true_r. apply Nat.leb_le. lia.
  - inversion He; subst. rewrite append_nil_r. unfold isHostLabel.
    cbn [lastByte String.length allBytes]. rewrite A0, (alnum_alnumDash _ A0). reflexivity.
Qed.

Lemma isHostLabel_noDot label :
  isHostLabel label = true -> allBytes noDot label = true.
Proof.
  unfold isHostLabel. destruct label as [|ch rest]; [discriminate|].
  intros H. apply andb_prop in H as [_ H].
  revert H. apply allBytes_weaken. apply alnumDash_noDot.
Qed.

Lemma Split_nodot l : allBytes noDot l = true -> GoString.Split l "." = [l].
Proof.
  induction l as [|ch l IH]; simpl; [reflexivity|].
  intros H. apply andb_prop in H as [H1 H2]. unfold noDot in H1.
  destruct (Ascii.eqb ch "."); [discriminate|]. rewrite (IH H2). reflexivity.
Qed.

Lemma Split_dot (l rest : string) :
  allBytes noDot l = true ->
  GoString.Split (l ++ String "." rest) "." = l :: GoString.Split rest ".".
Proof.
  induction l as [|ch l IH]; str_simpl; [reflexivity|].
  intros H. apply andb_prop in H as [H1 H2]. unfold noDot in H1.
  destruct (Ascii.eqb ch "."); [discriminate|]. rewrite (IH H2). reflexivity.
Qed.

Lemma lang_more_labels r t :
  lang r t -> r = Star (Cat (Chr ".") labelRe) ->
  forall l0, allBytes noDot l0 = true ->
  exists labels, GoString.Split (l0 ++ t) "." = l0 :: labels
    /\ Forall (fun l => isHostLabel l = true) labels.
Proof.
  induction 1; intros E l0 Hl0; try discriminate.
  - exists []. rewrite append_nil_r, (Split_nodot _ Hl0). auto.
  - injection E as ->. clear IHlang1.
    inversion H as [| |r1 r2 d l1 Hd H1| | | |]; subst.
    apply lang_Class_inv in Hd as (ch & -> & Hch).
    assert (ch = "."%char) as ->.
    { apply Ascii.eqb_eq. revert Hch. generalize ch. by_bytes. }
    apply lang_labelRe in H1.
    destruct (IHlang2 eq_refl l1 (isHostLabel_noDot _ H1)) as (labels & Hs & Hf).
    exists (l1 :: labels).
    change (l0 ++ (String "." "" ++ l1) ++ s2)%string
      with (l0 ++ String "." (l1 ++ s2))%string.
    rewrite (Split_dot _ _ Hl0), Hs. split; [reflexivity | constructor; assumption].
Qed.

Lemma lang_emailBody_parts s :
  lang emailBody s ->
  exists l h, s = (l ++ String "@" h)%string
    /\ lang (Plus (Class localClass)) l /\ lang hostRe h.
Proof.
  unfold emailBody. intros H.
  inversion H as [| |r1 r2 l s2 Hl H2| | | |]; subst; clear H.
  inversion H2 as [| |r1 r2 s3 h H3 Hh| | | |]; subst; clear H2.
  apply lang_Class_inv in H3 as (ch & -> & Hch).
  assert (ch = "@"%char) as ->.
  { apply Ascii.eqb_eq. revert Hch. generalize ch. by_bytes. }
  exists l, h. str_simpl. auto.
Qed.

End HostLabels.

(** X1. A valid address has one [@], with a non-empty local part before it and
    a non-empty domain after it; it is ASCII and 3 to 254 bytes long. *)
Theorem isEmailValid_local_at_domain (e : string) :
  isEmailValid e = true ->
  GoString.count "@" e = 1
  /\ GoString.isASCII e = true
  /\ 3 <= GoString.len e <= 254
  /\ emailDomain e <> ""
  /\ exists l, l <> "" /\ e = l +:+ "@" +:+ emailDomain e.
Proof.
  intros V.
  destruct (EmailFacts.isEmailValid_shape _ V) as (l & h & E & Hl & Hh & Nl & Nh).
  pose proof (EmailFacts.emailDomain_split l h (EmailFacts.emailBytes_noAt _ Hl)) as D.
  rewrite <- E in D.
  split; [|split; [|split; [|split]]].
  - rewrite E, HostLabels.count_app. simpl.
    rewrite (HostLabels.count_noAt _ (EmailFacts.emailBytes_noAt _ Hl)).
    rewrite (HostLabels.count_noAt _ (EmailFacts.emailBytes_noAt _ Hh)). reflexivity.
  - apply EmailFacts.lang_emailBody_ascii, EmailFacts.isEmailValid_lang, V.
  - unfold isEmailValid in V.
    destruct (Nat.ltb (GoString.len e) 3) eqn:A; [discriminate|].
    destruct (Nat.ltb 254 (GoString.len e)) eqn:B; [discriminate|].
    apply Nat.ltb_ge in A, B. lia.
  - rewrite D. exact Nh.
  - exists l. split; [exact Nl|]. rewrite D. exact E.
Qed.

(** X2. The domain of a valid address is made of host labels separated by dots:
    each has 1 to 63 letters, digits and hyphens and neither starts nor ends
    with a hyphen. *)
Theorem isEmailValid_host_labels (e : string) :
  isEmailValid e = true ->
  hostLabels e <> []
  /\ Forall (fun label => isHostLabel label = true) (hostLabels e).
Proof.
  intros V. apply EmailFacts.isEmailValid_lang in V.
  destruct (HostLabels.lang_emailBody_parts _ V) as (l & h & -> & Hl & Hh).
  unfold hostLabels.
  assert (Nl : allBytes noAt l = true).
  { eapply RegexpFacts.allBytes_weaken; [|apply (RegexpFacts.lang_alphabet _ _ Hl)].
    intros ch Hch. apply EmailFacts.localByte_spec in Hch.
    revert Hch. generalize ch. EmailFacts.by_bytes. }
  rewrite (EmailFacts.emailDomain_split _ _ Nl).
  unfold hostRe in Hh.
  inversion Hh as [| |r1 r2 l0 t H0 Ht| | | |]; subst.
  apply HostLabels.lang_labelRe in H0.
  destruct (HostLabels.lang_more_labels _ _ Ht eq_refl l0
              (HostLabels.isHostLabel_noDot _ H0)) as (labels & Hs & Hf).
  rewrite Hs. split; [discriminate | constructor; assumption].
Qed.

Example hostLabels_example :
  hostLabels "alice@mail.example.com" = ["mail"; "example"; "com"].
Proof. reflexivity. Qed.

Section WhitelistCase.

Variable lower : string -> string.
Variable managed : list string -> string -> bool.
Variable brand : cfg.Brand.

Lemma ToLower_valid e :
  isEmailValid e = true -> ToLower lower e = GoString.asciiLower e.
Proof.
  intros V. apply ToLower_ascii, EmailFacts.lang_emailBody_ascii,
    EmailFacts.isEmailValid_lang, V.
Qed.

(** X6. Under the whitelist, when the username is a valid address that is
    compared without regard to case, the decision is the same for every
    spelling of it that differs in the case of letters only. *)
Theorem verifyUser_whitelist_case_blind (c : cfg.Config) (u u' : User.t) :
  activeMode c = UserWhitelist ->
  isEmailValid (User.Username u) = true ->
  isUsernameCaseInsensitive lower c u = true ->
  GoString.asciiLower (User.Username u') = GoString.asciiLower (User.Username u) ->
  allowed (verifyUser lower managed c brand u')
  = allowed (verifyUser lower managed c brand u).
Proof.
  intros M V CI L.
  assert (V' : isEmailValid (User.Username u') = true).
  { rewrite <- (EmailMore.isEmailValid_lowered (User.Username u')), L,
      EmailMore.isEmailValid_lowered. exact V. }
  assert (T : ToLower lower (User.Username u') = ToLower lower (User.Username u)).
  { rewrite (ToLower_valid _ V), (ToLower_valid _ V'). exact L. }
  assert (CI' : isUsernameCaseInsensitive lower c u' = true).
  { revert CI. unfold isUsernameCaseInsensitive. rewrite T. auto. }
  rewrite !verifyUser_allowed, M, CI, CI'.
  apply existsb_eq. intros wl. unfold whiteListEntryMatches.
  rewrite V, V', T. cbn [andb].
  destruct (String.eqb_spec (User.Username u) wl) as [E|E];
    destruct (String.eqb_spec (User.Username u') wl) as [E'|E']; cbn [orb];
    try reflexivity.
  - subst wl. rewrite String.eqb_refl. reflexivity.
  - subst wl. rewrite <- T, String.eqb_refl. reflexivity.
Qed.

End WhitelistCase.

(** ** More on the ADFS adapter *)

Section AdapterMore.

Variable oauth : cfg.OAuth.
Variable parse : string -> gmap string (list string).
Variable encode : gmap string (list string) -> string.
Variable newRequest : string -> string -> string -> adfs.HttpRequest + error.
Variable clientDo : adfs.HttpRequest -> adfs.HttpResponse + error.
Variable unmarshalTokenRes : string -> adfs.adfsTokenRes + error.
Variable decodeString : string -> string + error.
Variable unmarshalADFSUser : string -> ADFSUser.t.
Variable mapClaims : string -> CustomClaims.t -> CustomClaims.t * option error.
Variable prepare : ADFSUser.t -> ADFSUser.t.

Let getUserInfoFromADFS :=
  adfs.GetUserInfoFromADFS oauth parse encode newRequest clientDo unmarshalTokenRes
    decodeString unmarshalADFSUser mapClaims prepare.

Let request := adfs.tokenRequest oauth parse encode newRequest.

Lemma outTokens_deferClose userinfo res :
  outTokens (adfs.deferClose userinfo res) = outTokens res.
Proof. unfold adfs.deferClose. destruct (adfs.closeErr userinfo); reflexivity. Qed.

(** The exchange succeeds up to the decoded record: request built, response
    received, token response parsed, an id_token of two segments or more
    whose second segment decodes to [idToken], claims mapped. *)
Let decodes (r : Request) (claims : CustomClaims.t) (userinfo : adfs.HttpResponse)
    (tokenRes : adfs.adfsTokenRes) (idToken : string) : Prop :=
  exists req,
    request r = inl req
    /\ clientDo req = inl userinfo
    /\ unmarshalTokenRes (adfs.bodyData userinfo) = inl tokenRes
    /\ 2 <= length (GoString.Split (adfs.IDToken tokenRes) ".")
    /\ decodeString (payloadSegment (adfs.IDToken tokenRes)) = inl idToken
    /\ snd (mapClaims idToken claims) = None.

Ltac on_success H :=
  let req := fresh "req" in
  destruct H as (req & Hreq & Hdo & Hjson & Hlen & Hb64 & Hmap);
  unfold getUserInfoFromADFS, adfs.GetUserInfoFromADFS; fold request;
  unfold payloadSegment in Hb64;
  rewrite Hreq, Hdo; cbv zeta; rewrite Hjson;
  apply Nat.ltb_ge in Hlen; rewrite Hlen, Hb64, Hmap.

(** X15. The adapter never changes the user's [Name] and [TeamMemberships], and
    it writes [Username] and [Email] on one path only: the one where every
    step up to the decoded record has succeeded.  On every other path the
    user is left as it was; on that path the [Username] is the record's and
    the [Email] is the record's [Email] or its [UPN]. *)
Theorem GetUserInfoFromADFS_writes_user_on_success_only
    (r : Request) (user : User.t) (claims : CustomClaims.t) (ptokens : PTokens.t) :
  let out := outUser (getUserInfoFromADFS r user claims ptokens) in
  User.Name out = User.Name user
  /\ User.TeamMemberships out = User.TeamMemberships user
  /\ (out = user
      \/ exists userinfo tokenRes idToken, decodes r claims userinfo tokenRes idToken)
  /\ (forall userinfo tokenRes idToken,
        decodes r claims userinfo tokenRes idToken ->
        let record := prepare (unmarshalADFSUser idToken) in
        User.Username out = ADFSUser.Username record
        /\ (User.Email out = ADFSUser.Email record
            \/ User.Email out = ADFSUser.UPN record)).
Proof.
  cbv zeta. split; [|split; [|split]].
  4: { intros userinfo tokenRes idToken H. on_success H.
       rewrite outUser_deferClose.
       cbn [outUser User.setEmail User.setUsername User.Username User.Email].
       destruct (Nat.eqb _ 0); [destruct (MatchString _ _)|];
         cbn [ADFSUser.setEmail ADFSUser.Username ADFSUser.Email]; auto. }
  all: unfold decodes, getUserInfoFromADFS, adfs.GetUserInfoFromADFS, payloadSegment;
    fold request;
    destruct (request r) as [req|e] eqn:Hreq; [|cbn; auto];
    destruct (clientDo req) as [userinfo|e] eqn:Hdo; [|cbn; auto];
    cbv zeta; rewrite outUser_deferClose;
    destruct (unmarshalTokenRes _) as [tokenRes|e] eqn:Hjson; [|cbn; auto];
    destruct (Nat.ltb _ 2) eqn:Hlen; [cbn; auto|];
    destruct (decodeString _) as [idToken|e] eqn:Hb64; [|cbn; auto];
    destruct (snd (mapClaims idToken claims)) eqn:Hmap; [cbn; auto|];
    cbn [outUser User.Name User.TeamMemberships User.setEmail User.setUsername
         User.Username]; try reflexivity.
  right. exists userinfo, tokenRes, idToken, req.
  apply Nat.ltb_ge in Hlen. auto 10.
Qed.

(** X17. A failing [Body.Close] turns a successful exchange into an error: the
    adapter returns the error of [Close], although it has already written
    the user and the tokens. *)
Theorem GetUserInfoFromADFS_close_error_after_success
    (r : Request) (user : User.t) (claims : CustomClaims.t) (ptokens : PTokens.t)
    (userinfo : adfs.HttpResponse) (tokenRes : adfs.adfsTokenRes) (idToken : string)
    (err : error) :
  decodes r claims userinfo tokenRes idToken ->
  adfs.closeErr userinfo = Some err ->
  let res := getUserInfoFromADFS r user claims ptokens in
  rerr res = Some err
  /\ User.Username (outUser res) = ADFSUser.Username (prepare (unmarshalADFSUser idToken))
  /\ outTokens res = PTokens.mk (adfs.AccessToken tokenRes) (adfs.IDToken tokenRes).
Proof.
  intros H C res. subst res. on_success H.
  unfold adfs.deferClose. rewrite C.
  cbn [rerr outUser outTokens User.Username User.setEmail User.setUsername].
  split; [reflexivity|]. split; [|reflexivity].
  destruct (Nat.eqb _ 0); [destruct (MatchString _ _)|]; reflexivity.
Qed.

(** X18. The pass-through tokens are copied from the token response as soon as it
    is parsed, whatever the id_token turns out to be; they are left alone
    when the response is not parsed. *)
Theorem GetUserInfoFromADFS_tokens_before_id_token_check
    (r : Request) (user : User.t) (claims : CustomClaims.t) (ptokens : PTokens.t)
    (req : adfs.HttpRequest) (userinfo : adfs.HttpResponse) :
  request r = inl req ->
  clientDo req = inl userinfo ->
  outTokens (getUserInfoFromADFS r user claims ptokens)
  = match unmarshalTokenRes (adfs.bodyData userinfo) with
    | inl tokenRes => PTokens.mk (adfs.AccessToken tokenRes) (adfs.IDToken tokenRes)
    | inr _ => ptokens
    end.
Proof.
  intros Hreq Hdo.
  unfold getUserInfoFromADFS, adfs.GetUserInfoFromADFS. fold request.
  rewrite Hreq, Hdo, outTokens_deferClose. cbv zeta.
  destruct (unmarshalTokenRes _) as [tokenRes|e]; [|reflexivity].
  destruct (Nat.ltb _ 2); [reflexivity|].
  destruct (decodeString _); [|reflexivity].
  destruct (snd (mapClaims _ _)); reflexivity.
Qed.

(** X19. Of the id_token only the second segment is read: two exchanges whose
    id_tokens have the same second segment (and whatever header, signature
    or further segments) give the same user and the same error. *)
Theorem GetUserInfoFromADFS_reads_payload_segment_only
    (r1 r2 : Request) (user : User.t) (claims : CustomClaims.t) (ptokens : PTokens.t)
    (req1 req2 : adfs.HttpRequest) (u1 u2 : adfs.HttpResponse)
    (t1 t2 : adfs.adfsTokenRes) :
  request r1 = inl req1 -> clientDo req1 = inl u1 ->
  request r2 = inl req2 -> clientDo req2 = inl u2 ->
  adfs.closeErr u1 = adfs.closeErr u2 ->
  unmarshalTokenRes (adfs.bodyData u1) = inl t1 ->
  unmarshalTokenRes (adfs.bodyData u2) = inl t2 ->
  2 <= length (GoString.Split (adfs.IDToken t1) ".") ->
  2 <= length (GoString.Split (adfs.IDToken t2) ".") ->
  payloadSegment (adfs.IDToken t1) = payloadSegment (adfs.IDToken t2) ->
  outUser (getUserInfoFromADFS r1 user claims ptokens)
    = outUser (getUserInfoFromADFS r2 user claims ptokens)
  /\ rerr (getUserInfoFromADFS r1 user claims ptokens)
    = rerr (getUserInfoFromADFS r2 user claims ptokens)
  /\ outClaims (getUserInfoFromADFS r1 user claims ptokens)
    = outClaims (getUserInfoFromADFS r2 user claims ptokens).
Proof.
  intros Hr1 Hd1 Hr2 Hd2 Hc Hj1 Hj2 Hl1 Hl2 Hp.
  unfold getUserInfoFromADFS, adfs.GetUserInfoFromADFS. fold request.
  unfold payloadSegment in Hp.
  rewrite Hr1, Hd1, Hr2, Hd2. cbv zeta. rewrite Hj1, Hj2.
  apply Nat.ltb_ge in Hl1, Hl2. rewrite Hl1, Hl2, Hp.
  unfold adfs.deferClose. rewrite Hc.
  destruct (decodeString _) as [idToken|e];
    [destruct (snd (mapClaims idToken claims))|];
    destruct (adfs.closeErr u2); repeat split; reflexivity.
Qed.

(** X20. The form posted to the token endpoint: the callback's code, the grant
    type [authorization_code], the redirect URL as [resource] and
    [redirect_uri], the client id, and the client secret exactly when one is
    configured; no other field. *)
Theorem tokenRequest_form (r : Request) :
  let form := tokenForm oauth parse r in
  request r
  = match newRequest "POST" (cfg.TokenURL oauth) (encode form) with
    | inr err => inr err
    | inl req =>
        inl (adfs.HeaderSet
               (adfs.HeaderAdd
                  (adfs.HeaderAdd req "Content-Type" "application/x-www-form-urlencoded")
                  "Content-Length" (adfs.Itoa (GoString.len (encode form))))
               "Accept" "application/json")
    end
  /\ form !! "code" = Some [Values.Get (parse (RawQuery r)) "code"]
  /\ form !! "grant_type" = Some ["authorization_code"]
  /\ form !! "resource" = Some [cfg.RedirectURL oauth]
  /\ form !! "redirect_uri" = Some [cfg.RedirectURL oauth]
  /\ form !! "client_id" = Some [cfg.ClientID oauth]
  /\ form !! "client_secret"
     = (if String.eqb (cfg.ClientSecret oauth) "" then None
        else Some [cfg.ClientSecret oauth])
  /\ (forall key, is_Some (form !! key) ->
        In key ["code"; "grant_type"; "resource"; "redirect_uri"; "client_id";
                "client_secret"]).
Proof.
  intros form. subst form. unfold request, adfs.tokenRequest, tokenForm, Values.Set_.
  split.
  { destruct (negb (cfg.ClientSecret oauth =? "")); reflexivity. }
  destruct (cfg.ClientSecret oauth =? ""); cbn [negb].
  all: repeat split; try (simplify_map_eq; reflexivity).
  all: intros key [v Hv]; simpl;
    destruct (decide (key = "client_secret")) as [->|]; [tauto|];
    destruct (decide (key = "redirect_uri")) as [->|]; [tauto|];
    destruct (decide (key = "client_id")) as [->|]; [tauto|];
    destruct (decide (key = "resource")) as [->|]; [tauto|];
    destruct (decide (key = "grant_type")) as [->|]; [tauto|];
    destruct (decide (key = "code")) as [->|]; [tauto|];
    simplify_map_eq.
Qed.

End AdapterMore.

(** ** The router of [main] *)

Module RouterFacts.
Import RegexpFacts.

Lemma dead_not_nullable r : dead r = true -> nullable r = false.
Proof.
  induction r; simpl; intros H; try discriminate; try reflexivity.
  - apply orb_prop in H as [H|H]; [rewrite IHr1 | rewrite IHr2, andb_false_r]; auto.
  - apply andb_prop in H as [H1 H2]. rewrite IHr1, IHr2; auto.
Qed.

Lemma dead_deriv r ch : dead r = true -> dead (deriv ch r) = true.
Proof.
  induction r; simpl; intros H; try discriminate; try reflexivity.
  - apply orb_prop in H as [H|H].
    + rewrite (dead_not_nullable _ H). simpl. rewrite IHr1; auto.
    + destruct (nullable r1); simpl; rewrite ?IHr2, ?H, ?orb_true_r; auto.
  - apply andb_prop in H as [H1 H2]. rewrite IHr1, IHr2; auto.
Qed.

Lemma fullMatch_dead s : forall r, dead r = true -> fullMatch r s = false.
Proof.
  induction s as [|ch s IH]; intros r H; simpl.
  - apply dead_not_nullable, H.
  - apply IH, dead_deriv, H.
Qed.

Lemma fullMatch_derivs (p s : string) : forall r,
  fullMatch r (p ++ s) = fullMatch (derivs p r) s.
Proof. induction p as [|ch p IH]; intros r; str_simpl; [reflexivity | apply IH]. Qed.

(** A path that starts with [p] is not matched when the expression is dead
    after [p]. *)
Lemma no_match_after (p s : string) r :
  dead (derivs p r) = true -> fullMatch r (p ++ s) = false.
Proof. intros H. rewrite fullMatch_derivs. apply fullMatch_dead, H. Qed.

Lemma lang_cons_Chr ch r s : lang r s -> lang (Cat (Chr ch) r) (String ch s).
Proof.
  intros H. change (String ch s) with (String ch "" ++ s)%string.
  constructor; [|exact H]. constructor. unfold inClass, inRange. simpl.
  rewrite Nat.leb_refl. reflexivity.
Qed.

Lemma lang_Star_class rs s :
  allBytes (fun b => inClass b rs) s = true -> lang (Star (Class rs)) s.
Proof.
  induction s as [|ch s IH]; simpl; intros H; [constructor|].
  apply andb_prop in H as [H1 H2].
  change (String ch s) with (String ch "" ++ s)%string.
  constructor; [constructor; exact H1 | apply IH, H2].
Qed.

Lemma lang_Plus_class rs s :
  s <> "" -> allBytes (fun b => inClass b rs) s = true -> lang (Plus (Class rs)) s.
Proof.
  destruct s as [|ch s]; [congruence|]. intros _ H. simpl in H.
  apply andb_prop in H as [H1 H2].
  change (String ch s) with (String ch "" ++ s)%string.
  constructor; [constructor; exact H1 | apply lang_Star_class, H2].
Qed.

End RouterFacts.

(** X21. [/_external-auth-{id}] is an alias of [/validate]: for every id that is
    not empty and has no slash the path is served by the handler that serves
    [/validate]. *)
Theorem main_serves_external_auth_like_validate (webApp : bool) (id : string) :
  id <> "" ->
  allBytes (fun b => inClass b main.notSlash) id = true ->
  main.serve webApp ("/_external-auth-" +:+ id) = Some main.ValidateRequestHandler
  /\ main.serve webApp "/validate" = Some main.ValidateRequestHandler.
Proof.
  intros N A. split; [|destruct webApp; reflexivity].
  unfold main.serve, main.routes. cbn [app find main.matcher main.matches].
  assert (F : fullMatch (main.templateRe false "/validate") ("/_external-auth-" +:+ id)
              = false).
  { apply (RouterFacts.no_match_after "/_" ("external-auth-" +:+ id)).
    vm_compute. reflexivity. }
  rewrite F.
  assert (T : fullMatch (main.templateRe false "/_external-auth-{id}")
                ("/_external-auth-" +:+ id) = true).
  { apply RegexpFacts.fullMatch_lang. cbn [main.templateRe Ascii.eqb Bool.eqb].
    change ("/_external-auth-" +:+ id)
      with (String "/" (String "_" (String "e" (String "x" (String "t" (String "e"
           (String "r" (String "n" (String "a" (String "l" (String "-" (String "a"
           (String "u" (String "t" (String "h" (String "-" id)))))))))))))))).
    repeat apply RouterFacts.lang_cons_Chr.
    rewrite <- (RegexpFacts.append_nil_r id). constructor; [|constructor].
    apply RouterFacts.lang_Plus_class; assumption. }
  rewrite T. reflexivity.
Qed.

(** X22. [/auth] is served by [CallbackHandler], and no route of [main] matches
    the path [/auth/{state}/] that [CallbackHandler] redirects to, whatever
    the state: the router answers it with 404. *)
Theorem main_has_no_route_for_auth_state (webApp : bool) (state : string) :
  main.serve webApp "/auth" = Some main.CallbackHandler
  /\ main.serve webApp ("/auth/" +:+ state +:+ "/") = None.
Proof.
  split; [destruct webApp; reflexivity|].
  assert (F : forall r, dead (derivs "/a" r) = true ->
                fullMatch r ("/auth/" +:+ state +:+ "/") = false).
  { intros r H. apply (RouterFacts.no_match_after "/a" ("uth/" +:+ state +:+ "/")), H. }
  assert (G : fullMatch (main.templateRe false "/auth") ("/auth/" +:+ state +:+ "/")
              = false).
  { apply (RouterFacts.no_match_after "/auth/" (state +:+ "/")). vm_compute. reflexivity. }
  unfold main.serve, main.routes, main.staticDir.
  cbn [app find main.matcher main.matches].
  rewrite G, !F by (vm_compute; reflexivity).
  destruct webApp; cbn [find main.matcher main.matches];
    rewrite ?F by (vm_compute; reflexivity); reflexivity.
Qed.

Example main_serves :
  map (main.serve true)
    ["/validate"; "/_external-auth-app1"; "/login"; "/logout"; "/auth"; "/healthcheck";
     "/static/css/main.css"; "/ws"; "/auth/S1/"; "/"; "/_external-auth-"; "/validate/"]
  = [Some main.ValidateRequestHandler; Some main.ValidateRequestHandler;
     Some main.LoginHandler; Some main.LogoutHandler; Some main.CallbackHandler;
     Some main.HealthcheckHandler; Some main.StaticFiles; Some main.WebSocket;
     None; None; None; None].
Proof. vm_compute. reflexivity. Qed.

(** ** The theorems above on the sample values *)

Lemma mintsToken_S1 (requestedURL : string) :
  mintsToken Sample.lower Sample.managed Sample.cfgDomains Sample.oauth Sample.brand
    (gmap string Session.t) Sample.sessGet Sample.provider Sample.mint Sample.parseQuery
    Sample.callbackS1 (Sample.storeS1 requestedURL) (Sample.sessionS1 requestedURL)
    SampleMore.resS1 "jwt.alice".
Proof.
  exists []. unfold reachesProvider. repeat split; reflexivity.
Defined.

Lemma AuthStateHandler_redirects_and_expires_session_witness :
  let saved := clearedSession (Sample.sessionS1 SampleMore.url) SampleMore.url in
  let out := SampleMore.flowS1 SampleMore.url in
  responses (traceOf out) = [Redirect302 SampleMore.url]
  /\ cookiesSet (traceOf out) = ["jwt.alice"]
  /\ storeOf out = fst (Sample.sessSave (Sample.storeS1 SampleMore.url) Sample.callbackS1 saved)
  /\ calls (traceOf out)
     = [SessionGet (cfg.SessionName Sample.cfgDomains) None; GetUserInfo None;
        VerifyUser (outUser SampleMore.resS1) true; NewVPJWT "jwt.alice" None;
        SetCookie "jwt.alice";
        SessionSave saved
          (snd (Sample.sessSave (Sample.storeS1 SampleMore.url) Sample.callbackS1 saved));
        Respond (Redirect302 SampleMore.url)]
  /\ traceOf out
     = [Log (Logf DebugLevel "/auth/{state}/" []);
        SessionGet (cfg.SessionName Sample.cfgDomains) None]
       ++ map Log (outLog SampleMore.resS1)
       ++ [GetUserInfo None;
           Log (Logf DebugLevel "/auth/{state}/ Claims from userinfo: %+v"
                  [AClaims (outClaims SampleMore.resS1)])]
       ++ map Log (logged (verifyUser Sample.lower Sample.managed Sample.cfgDomains
                             Sample.brand (outUser SampleMore.resS1)))
       ++ [VerifyUser (outUser SampleMore.resS1) true; NewVPJWT "jwt.alice" None;
           SetCookie "jwt.alice";
           SessionSave saved
             (snd (Sample.sessSave (Sample.storeS1 SampleMore.url) Sample.callbackS1
                     saved))]
       ++ match snd (Sample.sessSave (Sample.storeS1 SampleMore.url) Sample.callbackS1
                       saved) with
          | Some e => [Log (Logf ErrorLevel "%v" [AError e])]
          | None => []
          end
       ++ [Respond (Redirect302 SampleMore.url)].
Proof.
  apply (AuthStateHandler_redirects_and_expires_session
           Sample.lower Sample.managed Sample.cfgDomains Sample.oauth Sample.brand
           (gmap string Session.t) Sample.sessGet Sample.sessSave Sample.provider
           Sample.mint Sample.parseQuery
           Sample.callbackS1 (Sample.storeS1 SampleMore.url)
           (Sample.sessionS1 SampleMore.url) SampleMore.resS1 "jwt.alice" SampleMore.url).
  - apply mintsToken_S1.
  - reflexivity.
  - discriminate.
Defined.

Lemma AuthStateHandler_renders_token_without_requestedURL_witness :
  let out := SampleMore.flowS1 "" in
  responses (traceOf out) = [RenderIndex ("/auth " +:+ "jwt.alice")]
  /\ cookiesSet (traceOf out) = ["jwt.alice"]
  /\ storeOf out = Sample.storeS1 ""
  /\ calls (traceOf out)
     = [SessionGet (cfg.SessionName Sample.cfgDomains) None; GetUserInfo None;
        VerifyUser (outUser SampleMore.resS1) true; NewVPJWT "jwt.alice" None;
        SetCookie "jwt.alice"; Respond (RenderIndex ("/auth " +:+ "jwt.alice"))].
Proof.
  apply (AuthStateHandler_renders_token_without_requestedURL
           Sample.lower Sample.managed Sample.cfgDomains Sample.oauth Sample.brand
           (gmap string Session.t) Sample.sessGet Sample.sessSave Sample.provider
           Sample.mint Sample.parseQuery
           Sample.callbackS1 (Sample.storeS1 "") (Sample.sessionS1 "")
           SampleMore.resS1 "jwt.alice").
  - apply mintsToken_S1.
  - reflexivity.
Defined.

Lemma AuthStateHandler_panics_after_cookie_witness :
  let out := Sample.authState Sample.cfgDomains Sample.provider Sample.callbackS1
               SampleMore.storeNoURL in
  responses (traceOf out) = []
  /\ cookiesSet (traceOf out) = ["jwt.alice"]
  /\ storeOf out = SampleMore.storeNoURL
  /\ calls (traceOf out)
     = [SessionGet (cfg.SessionName Sample.cfgDomains) None; GetUserInfo None;
        VerifyUser (outUser SampleMore.resS1) true; NewVPJWT "jwt.alice" None;
        SetCookie "jwt.alice"; Panic].
Proof.
  apply (AuthStateHandler_panics_after_cookie_without_requestedURL
           Sample.lower Sample.managed Sample.cfgDomains Sample.oauth Sample.brand
           (gmap string Session.t) Sample.sessGet Sample.sessSave Sample.provider
           Sample.mint Sample.parseQuery
           Sample.callbackS1 SampleMore.storeNoURL SampleMore.sessionNoURL
           SampleMore.resS1 "jwt.alice").
  - exists []. unfold reachesProvider. repeat split; reflexivity.
  - reflexivity.
Defined.


Lemma AuthStateHandler_panics_without_pkce_witness :
  calls (traceOf (SampleMore.authStatePKCE SampleMore.sessionNoVerifier))
    = [SessionGet (cfg.SessionName Sample.cfgDomains) None; Panic]
  /\ responses (traceOf (SampleMore.authStatePKCE SampleMore.sessionNoVerifier)) = []
  /\ cookiesSet (traceOf (SampleMore.authStatePKCE SampleMore.sessionNoVerifier)) = []
  /\ storeOf (SampleMore.authStatePKCE SampleMore.sessionNoVerifier)
     = <["sid1" := SampleMore.sessionNoVerifier]> ∅.
Proof.
  apply (AuthStateHandler_panics_without_pkce_values
           Sample.lower Sample.managed Sample.cfgDomains SampleMore.oauthPKCE Sample.brand
           (gmap string Session.t) Sample.sessGet Sample.sessSave Sample.provider
           Sample.mint Sample.parseQuery
           Sample.callbackS1 (<["sid1" := SampleMore.sessionNoVerifier]> ∅)
           SampleMore.sessionNoVerifier); reflexivity.
Defined.

Lemma AuthStateHandler_saves_expired_session_witness :
  Session.MaxAge (clearedSession (Sample.sessionS1 SampleMore.url) SampleMore.url)
    = (-1)%Z
  /\ storeOf (SampleMore.flowS1 SampleMore.url)
     = fst (Sample.sessSave (Sample.storeS1 SampleMore.url) Sample.callbackS1
              (clearedSession (Sample.sessionS1 SampleMore.url) SampleMore.url)).
Proof.
  apply (AuthStateHandler_saves_expired_session
           Sample.lower Sample.managed Sample.cfgDomains Sample.oauth Sample.brand
           (gmap string Session.t) Sample.sessGet Sample.sessSave Sample.provider
           Sample.mint Sample.parseQuery
           Sample.callbackS1 (Sample.storeS1 SampleMore.url)
           (clearedSession (Sample.sessionS1 SampleMore.url) SampleMore.url) None).
  vm_compute. find_event.
Defined.

Lemma verifyUser_reads_one_field_witness :
  allowed (verifyUser Sample.lower Sample.managed Sample.cfgWhiteList Sample.brand
             (User.mk "bob@example.com" "" "bob@example.com" []))
  = allowed (verifyUser Sample.lower Sample.managed Sample.cfgWhiteList Sample.brand
               (User.mk "bob@example.com" "Bob" "robert@elsewhere.org" ["ops"])).
Proof.
  apply (verifyUser_reads_one_field Sample.lower Sample.managed Sample.brand
           Sample.cfgWhiteList).
  reflexivity.
Defined.

Lemma isEmailValid_local_at_domain_witness :
  GoString.count "@" "alice@mail.example.com" = 1
  /\ GoString.isASCII "alice@mail.example.com" = true
  /\ 3 <= GoString.len "alice@mail.example.com" <= 254
  /\ emailDomain "alice@mail.example.com" <> ""
  /\ exists l, l <> ""
       /\ "alice@mail.example.com" = l +:+ "@" +:+ emailDomain "alice@mail.example.com".
Proof.
  apply (isEmailValid_local_at_domain "alice@mail.example.com").
  vm_compute. reflexivity.
Defined.

Lemma isEmailValid_host_labels_witness :
  hostLabels "alice@mail.example.com" <> []
  /\ Forall (fun label => isHostLabel label = true) (hostLabels "alice@mail.example.com").
Proof.
  apply (isEmailValid_host_labels "alice@mail.example.com").
  vm_compute. reflexivity.
Defined.

Lemma verifyUser_whitelist_case_blind_witness :
  allowed (verifyUser Sample.lower Sample.managed Sample.cfgFolded Sample.brand
             (User.mk "BOB@example.com" "" "" []))
  = allowed (verifyUser Sample.lower Sample.managed Sample.cfgFolded Sample.brand
               Sample.bobUpper).
Proof.
  apply (verifyUser_whitelist_case_blind Sample.lower Sample.managed Sample.brand
           Sample.cfgFolded Sample.bobUpper (User.mk "BOB@example.com" "" "" [])).
  - reflexivity.
  - vm_compute. reflexivity.
  - vm_compute. reflexivity.
  - reflexivity.
Defined.

Lemma GetUserInfoFromADFS_malformed_response_witness :
  rerr (Sample.adfsProvider "<html>502 Bad Gateway</html>" Sample.callbackS1
          User.zero CustomClaims.zero PTokens.zero []) = None
  /\ outUser (Sample.adfsProvider "<html>502 Bad Gateway</html>" Sample.callbackS1
                User.zero CustomClaims.zero PTokens.zero []) = User.zero.
Proof.
  refine (GetUserInfoFromADFS_malformed_response Sample.oauth Sample.parseQuery
            Sample.encode Sample.newRequest (Sample.clientDo "<html>502 Bad Gateway</html>")
            Sample.unmarshalTokenRes Sample.decodeString Sample.unmarshalADFSUser
            Sample.mapClaims Sample.prepare
            Sample.callbackS1 User.zero CustomClaims.zero PTokens.zero
            _ (adfs.mkHttpResponse "<html>502 Bad Gateway</html>" None) _ _ _ _).
  - reflexivity.
  - reflexivity.
  - reflexivity.
  - left. eexists. reflexivity.
Defined.

Lemma GetUserInfoFromADFS_close_error_witness :
  let res := SampleMore.adfsWith Sample.encode SampleMore.clientDoCloseFails
               Sample.callbackS1 in
  rerr res = Some "close failed"
  /\ User.Username (outUser res)
     = ADFSUser.Username (Sample.prepare (Sample.unmarshalADFSUser "payload"))
  /\ outTokens res = PTokens.mk "access" "header.payload.signature".
Proof.
  refine (GetUserInfoFromADFS_close_error_after_success Sample.oauth Sample.parseQuery
            Sample.encode Sample.newRequest SampleMore.clientDoCloseFails
            SampleMore.unmarshalTokenRes Sample.decodeString Sample.unmarshalADFSUser
            Sample.mapClaims Sample.prepare
            Sample.callbackS1 User.zero CustomClaims.zero PTokens.zero
            (adfs.mkHttpResponse "{token response}" (Some "close failed"))
            (adfs.mkTokenRes "access" "bearer" "header.payload.signature" 3600)
            "payload" "close failed" _ _).
  - eexists. repeat split; try reflexivity. vm_compute. lia.
  - reflexivity.
Defined.

Lemma GetUserInfoFromADFS_tokens_witness :
  outTokens (Sample.adfsProvider "{token response, id_token: not-a-jws}"
               Sample.callbackS1 User.zero CustomClaims.zero PTokens.zero [])
  = match Sample.unmarshalTokenRes "{token response, id_token: not-a-jws}" with
    | inl tokenRes => PTokens.mk (adfs.AccessToken tokenRes) (adfs.IDToken tokenRes)
    | inr _ => PTokens.zero
    end.
Proof.
  refine (GetUserInfoFromADFS_tokens_before_id_token_check Sample.oauth Sample.parseQuery
            Sample.encode Sample.newRequest
            (Sample.clientDo "{token response, id_token: not-a-jws}")
            Sample.unmarshalTokenRes Sample.decodeString Sample.unmarshalADFSUser
            Sample.mapClaims Sample.prepare
            Sample.callbackS1 User.zero CustomClaims.zero PTokens.zero
            _ (adfs.mkHttpResponse "{token response, id_token: not-a-jws}" None) _ _).
  - reflexivity.
  - reflexivity.
Defined.

Lemma GetUserInfoFromADFS_payload_segment_witness :
  outUser (SampleMore.adfsWith SampleMore.encodeCode SampleMore.clientDoByCode
             Sample.callbackS1)
    = outUser (SampleMore.adfsWith SampleMore.encodeCode SampleMore.clientDoByCode
                 SampleMore.callbackC2)
  /\ rerr (SampleMore.adfsWith SampleMore.encodeCode SampleMore.clientDoByCode
            Sample.callbackS1)
    = rerr (SampleMore.adfsWith SampleMore.encodeCode SampleMore.clientDoByCode
              SampleMore.callbackC2)
  /\ outClaims (SampleMore.adfsWith SampleMore.encodeCode SampleMore.clientDoByCode
                 Sample.callbackS1)
    = outClaims (SampleMore.adfsWith SampleMore.encodeCode SampleMore.clientDoByCode
                   SampleMore.callbackC2).
Proof.
  refine (GetUserInfoFromADFS_reads_payload_segment_only Sample.oauth Sample.parseQuery
            SampleMore.encodeCode Sample.newRequest SampleMore.clientDoByCode
            SampleMore.unmarshalTokenRes Sample.decodeString Sample.unmarshalADFSUser
            Sample.mapClaims Sample.prepare
            Sample.callbackS1 SampleMore.callbackC2 User.zero CustomClaims.zero PTokens.zero
            _ _ (adfs.mkHttpResponse "{token response}" None)
            (adfs.mkHttpResponse "{token response, unsigned}" None)
            (adfs.mkTokenRes "access" "bearer" "header.payload.signature" 3600)
            (adfs.mkTokenRes "access" "bearer" "none.payload." 3600)
            _ _ _ _ _ _ _ _ _ _).
  - reflexivity.
  - vm_compute. reflexivity.
  - reflexivity.
  - vm_compute. reflexivity.
  - reflexivity.
  - reflexivity.
  - reflexivity.
  - vm_compute. lia.
  - vm_compute. lia.
  - reflexivity.
Defined.

Lemma main_serves_external_auth_witness :
  main.serve true ("/_external-auth-" +:+ "app1") = Some main.ValidateRequestHandler
  /\ main.serve true "/validate" = Some main.ValidateRequestHandler.
Proof.
  apply (main_serves_external_auth_like_validate true "app1").
  - discriminate.
  - reflexivity.
Defined.

